(** * A cross-environment process shim: args, stdout, stderr, exit, signal

    Shallow embedding of the [Runtime] facade (mod.ts, denoruntime.ts,
    noderuntime.ts) in both of its builds, over an explicit model of the
    JavaScript host: completions (normal or thrown), a world threaded
    through every host call, and the host primitives as a record. *)

From Stdlib Require Import List NArith ZArith String Ascii Bool Lia Eqdep_dec.
Import ListNotations.

Set Implicit Arguments.

(** ** JavaScript values *)

(** A JavaScript string is a sequence of UTF-16 code units. *)
Definition JsString := list N.

(** The code units of an ASCII source literal. *)
Definition lit (s : string) : JsString :=
  map N_of_ascii (list_ascii_of_string s).

Definition code_unit (u : N) : bool := (u <? 0x10000)%N.

(** Function objects are compared by identity; the shim never calls one. *)
Definition Callback := nat.

(** A thrown value. *)
Record JsError := mkError { error_name : string; error_message : string }.

Definition ReferenceError (ident : string) : JsError :=
  mkError "ReferenceError" (ident ++ " is not defined").

Inductive Completion (A : Type) : Type :=
| Normal (a : A)
| Throw (e : JsError).

Arguments Normal {A} a.
Arguments Throw {A} e.

Definition is_normal {A} (c : Completion A) : bool :=
  match c with Normal _ => true | Throw _ => false end.

(** How a call that cannot return ends: the process ended with a code,
    or the call threw before it could. *)
Inductive Ending : Type :=
| Ends (code : Z)
| Raises (e : JsError).

(** ** Statements that run against a world [W] *)

Section Effects.
Context {W : Type}.

Definition M (A : Type) : Type := W -> Completion A * W.

Definition ret {A} (a : A) : M A := fun w => (Normal a, w).

Definition throw {A} (e : JsError) : M A := fun w => (Throw e, w).

Definition bind {A B} (c : M A) (k : A -> M B) : M B :=
  fun w =>
    match c w with
    | (Normal a, w') => k a w'
    | (Throw e, w') => (Throw e, w')
    end.

(** [try { c } catch (e) { h e }]: effects of [c] up to the throw stay. *)
Definition try_catch {A} (c : M A) (h : JsError -> M A) : M A :=
  fun w =>
    match c w with
    | (Normal a, w') => (Normal a, w')
    | (Throw e, w') => h e w'
    end.

(** An expression statement: the value is dropped. *)
Definition void {A} (c : M A) : M unit := bind c (fun _ => ret tt).

(** A call typed [never]: no statement can follow it. *)
Definition Exits : Type := W -> Ending * W.

(** A statement followed by a call that cannot return. *)
Definition bind_exit {A} (c : M A) (k : A -> Exits) : Exits :=
  fun w =>
    match c w with
    | (Normal a, w') => k a w'
    | (Throw e, w') => (Raises e, w')
    end.
End Effects.

Arguments M W A : clear implicits.
Arguments Exits W : clear implicits.

Notation "x <- c ;; k" := (bind c (fun x => k))
  (at level 61, c at next level, right associativity).

(** ** Host APIs the shim consumes *)

Inductive Stream := Stdout | Stderr.

(** The [Deno] namespace object. *)
Record DenoNamespace (W : Type) := {
  Deno_args : M W (list JsString);
  Deno_addSignalListener : JsString -> Callback -> M W unit;
  Deno_stdout_writeSync : list N -> M W N;
  Deno_stderr_writeSync : list N -> M W N;
  Deno_exit : Z -> Exits W
}.

(** The default export of [node:process]. *)
Record NodeProcess (W : Type) := {
  process_argv : M W (list JsString);
  process_on : JsString -> Callback -> M W unit;
  process_stdout_write : JsString -> M W bool;
  process_stderr_write : JsString -> M W bool;
  process_exit : Z -> Exits W
}.

Record Host (W : Type) := {
  globalThis_Deno : option (DenoNamespace W);
  process : NodeProcess W
}.

(** Evaluating the identifier [Deno]. *)
Definition Deno {W} (host : Host W) : M W (DenoNamespace W) :=
  match globalThis_Deno host with
  | Some d => ret d
  | None => throw (ReferenceError "Deno")
  end.

(** [ToBoolean] of a property that holds an object or is undefined. *)
Definition ToBoolean {A} (v : option A) : bool :=
  match v with Some _ => true | None => false end.

(** [Array.prototype.slice(start)] for a start index that is not negative. *)
Definition slice {A} (start : nat) (a : list A) : list A := skipn start a.

(** ** [TextEncoder.prototype.encode] *)

Definition is_high_surrogate (u : N) : bool := ((0xD800 <=? u) && (u <=? 0xDBFF))%N.
Definition is_low_surrogate (u : N) : bool := ((0xDC00 <=? u) && (u <=? 0xDFFF))%N.

(** Conversion of a string to scalar values: a surrogate pair is one code
    point, an unpaired surrogate becomes U+FFFD. *)
Fixpoint to_scalar_values (s : JsString) : list N :=
  match s with
  | [] => []
  | u :: rest =>
      if is_high_surrogate u then
        match rest with
        | v :: rest' =>
            if is_low_surrogate v
            then (0x10000 + (u - 0xD800) * 0x400 + (v - 0xDC00))%N
                   :: to_scalar_values rest'
            else 0xFFFD%N :: to_scalar_values rest
        | [] => [0xFFFD%N]
        end
      else if is_low_surrogate u then 0xFFFD%N :: to_scalar_values rest
      else u :: to_scalar_values rest
  end.

Definition utf8_encode_scalar (c : N) : list N :=
  (if c <? 0x80 then [c]
   else if c <? 0x800 then [0xC0 + c / 0x40; 0x80 + c mod 0x40]
   else if c <? 0x10000 then
     [0xE0 + c / 0x1000; 0x80 + (c / 0x40) mod 0x40; 0x80 + c mod 0x40]
   else
     [0xF0 + c / 0x40000; 0x80 + (c / 0x1000) mod 0x40;
      0x80 + (c / 0x40) mod 0x40; 0x80 + c mod 0x40])%N.

Definition TextEncoder_encode (s : JsString) : list N :=
  flat_map utf8_encode_scalar (to_scalar_values s).

(** ** Reading written bytes back as text *)

Definition is_continuation (b : N) : bool := ((0x80 <=? b) && (b <? 0xC0))%N.

Fixpoint utf8_decode (bs : list N) : option (list N) :=
  match bs with
  | [] => Some []
  | b0 :: t0 =>
      if (b0 <? 0x80)%N then option_map (cons b0) (utf8_decode t0)
      else if ((0xC0 <=? b0) && (b0 <? 0xE0))%N then
        match t0 with
        | b1 :: t1 =>
            if is_continuation b1
            then option_map (cons ((b0 - 0xC0) * 0x40 + (b1 - 0x80))%N)
                            (utf8_decode t1)
            else None
        | _ => None
        end
      else if ((0xE0 <=? b0) && (b0 <? 0xF0))%N then
        match t0 with
        | b1 :: b2 :: t2 =>
            if is_continuation b1 && is_continuation b2
            then option_map
                   (cons ((b0 - 0xE0) * 0x1000 + (b1 - 0x80) * 0x40
                          + (b2 - 0x80))%N)
                   (utf8_decode t2)
            else None
        | _ => None
        end
      else if ((0xF0 <=? b0) && (b0 <? 0xF8))%N then
        match t0 with
        | b1 :: b2 :: b3 :: t3 =>
            if is_continuation b1 && is_continuation b2 && is_continuation b3
            then option_map
                   (cons ((b0 - 0xF0) * 0x40000 + (b1 - 0x80) * 0x1000
                          + (b2 - 0x80) * 0x40 + (b3 - 0x80))%N)
                   (utf8_decode t3)
            else None
        | _ => None
        end
      else None
  end.

Definition utf16_encode_scalar (c : N) : JsString :=
  (if c <? 0x10000 then [c]
   else [0xD800 + (c - 0x10000) / 0x400; 0xDC00 + (c - 0x10000) mod 0x400])%N.

Definition from_scalar_values (cs : list N) : JsString :=
  flat_map utf16_encode_scalar cs.

Definition TextDecoder_decode (bs : list N) : option JsString :=
  option_map from_scalar_values (utf8_decode bs).

(** [String.prototype.isWellFormed]: every surrogate is half of a pair. *)
Fixpoint isWellFormed (s : JsString) : bool :=
  match s with
  | [] => true
  | u :: rest =>
      if is_high_surrogate u then
        match rest with
        | v :: rest' => is_low_surrogate v && isWellFormed rest'
        | [] => false
        end
      else if is_low_surrogate u then false
      else code_unit u && isWellFormed rest
  end.

(** ** The capability handle *)

(** The class an object was constructed from. *)
Inductive Class := DenoRuntimeClass | NodeRuntimeClass.

(** [interface Runtime]: the five operations, on an instance of a class. *)
Record Runtime (W : Type) := {
  constructor : Class;
  args : M W (list JsString);
  stdout : JsString -> M W unit;
  stderr : JsString -> M W unit;
  exit : Z -> Exits W;
  signal : JsString -> Callback -> M W unit
}.

(** A union of string literal types, and the strings that inhabit it. *)
Definition LiteralUnion := list JsString.

Definition JsString_eqb (a b : JsString) : bool :=
  if list_eq_dec N.eq_dec a b then true else false.

Definition inhabits (s : JsString) (ty : LiteralUnion) : bool :=
  existsb (JsString_eqb s) ty.

(** A value of a string literal union type: a string the type checker
    admits where that type is asked for. *)
Definition Literal (ty : LiteralUnion) : Type :=
  { s : JsString | inhabits s ty = true }.

(** The string a typed name is; the types are erased when the code runs. *)
Definition text {ty : LiteralUnion} (n : Literal ty) : JsString := proj1_sig n.

(** ** The full build: mod.ts, denoruntime.ts, noderuntime.ts *)

Module Full.

(** The type of the name parameter at [Runtime.signal]. *)
Definition Runtime_signal_name : LiteralUnion :=
  map lit ["SIGINT"; "SIGTERM"; "SIGHUP"; "SIGUSR1"; "SIGUSR2"; "SIGINFO"]%string.

(** The same parameter as [DenoRuntime.signal] declares it. *)
Definition DenoRuntime_signal_name : LiteralUnion :=
  map lit ["SIGINT"; "SIGTERM"; "SIGHUP"; "SIGUSR1"; "SIGUSR2"; "SIGINFO"]%string.

(** The same parameter as [NodeRuntime.signal] declares it. *)
Definition NodeRuntime_signal_name : LiteralUnion :=
  map lit ["SIGINT"; "SIGTERM"; "SIGHUP"; "SIGUSR1"; "SIGUSR2"; "SIGINFO"]%string.

Section Build.
Context {W : Type} (host : Host W).

(** [class DenoRuntime]; the catch clause of [signal] is empty. *)

Definition DenoRuntime_signal (signal : JsString) (cb : Callback) : M W unit :=
  try_catch
    (d <- Deno host ;; Deno_addSignalListener d signal cb)
    (fun _err => ret tt).

Definition DenoRuntime_args : M W (list JsString) :=
  d <- Deno host ;; Deno_args d.

Definition DenoRuntime_stderr (s : JsString) : M W unit :=
  d <- Deno host ;; void (Deno_stderr_writeSync d (TextEncoder_encode s)).

Definition DenoRuntime_stdout (s : JsString) : M W unit :=
  d <- Deno host ;; void (Deno_stdout_writeSync d (TextEncoder_encode s)).

Definition DenoRuntime_exit (code : Z) : Exits W :=
  bind_exit (Deno host) (fun d => Deno_exit d code).

Definition DenoRuntime : Runtime W := {|
  constructor := DenoRuntimeClass;
  args := DenoRuntime_args;
  stdout := DenoRuntime_stdout;
  stderr := DenoRuntime_stderr;
  exit := DenoRuntime_exit;
  signal := DenoRuntime_signal
|}.

(** [runtime()] of denoruntime.ts *)
Definition denoruntime_runtime (_ : unit) : Runtime W := DenoRuntime.

(** [class NodeRuntime]; the catch clause of [signal] is empty. *)

Definition NodeRuntime_signal (signal : JsString) (cb : Callback) : M W unit :=
  try_catch
    (process_on (process host) signal cb)
    (fun _err => ret tt).

Definition NodeRuntime_args : M W (list JsString) :=
  argv <- process_argv (process host) ;; ret (slice 2 argv).

Definition NodeRuntime_stderr (s : JsString) : M W unit :=
  void (process_stderr_write (process host) s).

Definition NodeRuntime_stdout (s : JsString) : M W unit :=
  void (process_stdout_write (process host) s).

Definition NodeRuntime_exit (code : Z) : Exits W :=
  process_exit (process host) code.

Definition NodeRuntime : Runtime W := {|
  constructor := NodeRuntimeClass;
  args := NodeRuntime_args;
  stdout := NodeRuntime_stdout;
  stderr := NodeRuntime_stderr;
  exit := NodeRuntime_exit;
  signal := NodeRuntime_signal
|}.

(** [runtime()] of noderuntime.ts *)
Definition noderuntime_runtime (_ : unit) : Runtime W := NodeRuntime.

(** The dynamic import resolves to the module of this build; the awaited
    promise is read as its value. *)
Definition getRuntime : M W (Runtime W) :=
  if ToBoolean (globalThis_Deno host)
  then ret (denoruntime_runtime tt)
  else ret (noderuntime_runtime tt).

(** [signal] as each declaration types it: a call is admitted only with a
    name of the declared parameter type. What runs, the types erased, is
    the method above on the text of the name. *)

Definition DenoRuntime_signal_typed (signal : Literal DenoRuntime_signal_name)
    (cb : Callback) : M W unit :=
  DenoRuntime_signal (text signal) cb.

Definition NodeRuntime_signal_typed (signal : Literal NodeRuntime_signal_name)
    (cb : Callback) : M W unit :=
  NodeRuntime_signal (text signal) cb.

(** A call of [signal] through [interface Runtime]. *)
Definition Runtime_signal (r : Runtime W) (name : Literal Runtime_signal_name)
    (cb : Callback) : M W unit :=
  signal r (text name) cb.

End Build.
End Full.

(** ** The restricted build: two signal names, registration unguarded *)

Module Restricted.

(** The name parameter of [signal], at the interface and in both classes. *)
Definition Runtime_signal_name : LiteralUnion :=
  map lit ["SIGTERM"; "SIGINFO"]%string.

Definition DenoRuntime_signal_name : LiteralUnion :=
  map lit ["SIGTERM"; "SIGINFO"]%string.

Definition NodeRuntime_signal_name : LiteralUnion :=
  map lit ["SIGTERM"; "SIGINFO"]%string.

Section Build.
Context {W : Type} (host : Host W).

(** [class DenoRuntime]; its [signal] is the bare native call. *)

Definition DenoRuntime_signal (signal : JsString) (cb : Callback) : M W unit :=
  d <- Deno host ;; Deno_addSignalListener d signal cb.

Definition DenoRuntime_args : M W (list JsString) :=
  d <- Deno host ;; Deno_args d.

Definition DenoRuntime_stderr (s : JsString) : M W unit :=
  d <- Deno host ;; void (Deno_stderr_writeSync d (TextEncoder_encode s)).

Definition DenoRuntime_stdout (s : JsString) : M W unit :=
  d <- Deno host ;; void (Deno_stdout_writeSync d (TextEncoder_encode s)).

Definition DenoRuntime_exit (code : Z) : Exits W :=
  bind_exit (Deno host) (fun d => Deno_exit d code).

Definition DenoRuntime : Runtime W := {|
  constructor := DenoRuntimeClass;
  args := DenoRuntime_args;
  stdout := DenoRuntime_stdout;
  stderr := DenoRuntime_stderr;
  exit := DenoRuntime_exit;
  signal := DenoRuntime_signal
|}.

Definition denoruntime_runtime (_ : unit) : Runtime W := DenoRuntime.

(** [class NodeRuntime]; its [signal] is the bare native call. *)

Definition NodeRuntime_signal (signal : JsString) (cb : Callback) : M W unit :=
  process_on (process host) signal cb.

Definition NodeRuntime_args : M W (list JsString) :=
  argv <- process_argv (process host) ;; ret (slice 2 argv).

Definition NodeRuntime_stderr (s : JsString) : M W unit :=
  void (process_stderr_write (process host) s).

Definition NodeRuntime_stdout (s : JsString) : M W unit :=
  void (process_stdout_write (process host) s).

Definition NodeRuntime_exit (code : Z) : Exits W :=
  process_exit (process host) code.

Definition NodeRuntime : Runtime W := {|
  constructor := NodeRuntimeClass;
  args := NodeRuntime_args;
  stdout := NodeRuntime_stdout;
  stderr := NodeRuntime_stderr;
  exit := NodeRuntime_exit;
  signal := NodeRuntime_signal
|}.

Definition noderuntime_runtime (_ : unit) : Runtime W := NodeRuntime.

Definition getRuntime : M W (Runtime W) :=
  if ToBoolean (globalThis_Deno host)
  then ret (denoruntime_runtime tt)
  else ret (noderuntime_runtime tt).

(** [signal] as each declaration types it: a call is admitted only with a
    name of the declared parameter type. What runs, the types erased, is
    the method above on the text of the name. *)

Definition DenoRuntime_signal_typed (signal : Literal DenoRuntime_signal_name)
    (cb : Callback) : M W unit :=
  DenoRuntime_signal (text signal) cb.

Definition NodeRuntime_signal_typed (signal : Literal NodeRuntime_signal_name)
    (cb : Callback) : M W unit :=
  NodeRuntime_signal (text signal) cb.

(** A call of [signal] through [interface Runtime]. *)
Definition Runtime_signal (r : Runtime W) (name : Literal Runtime_signal_name)
    (cb : Callback) : M W unit :=
  signal r (text name) cb.

End Build.
End Restricted.

(** ** A recording host

    Modelled from the spec: the host itself (argument vector, stream
    writers, process exit, signal registry) is outside the repository.
    Every request the shim makes is recorded in [trace]; [listeners] is
    the host registry, to which an accepted registration is appended;
    a native call may raise, as the machine decides; the native exit
    ends the process and does not return. *)

Inductive HostCall :=
| Get_Deno_args
| Call_Deno_addSignalListener (name : JsString) (cb : Callback)
| Call_Deno_writeSync (fd : Stream) (bytes : list N)
| Call_Deno_exit (code : Z)
| Get_process_argv
| Call_process_on (name : JsString) (cb : Callback)
| Call_process_write (fd : Stream) (chunk : JsString)
| Call_process_exit (code : Z).

Record World := {
  trace : list HostCall;
  listeners : list (JsString * Callback);
  exit_status : option Z
}.

Definition boot : World :=
  {| trace := []; listeners := []; exit_status := None |}.

Record Machine := {
  has_Deno : bool;
  executable : JsString;
  script : JsString;
  user_args : list JsString;
  raises : HostCall -> World -> option JsError
}.

Definition record (c : HostCall) (w : World) : World :=
  {| trace := trace w ++ [c];
     listeners := listeners w;
     exit_status := exit_status w |}.

Definition attach (name : JsString) (cb : Callback) (w : World) : World :=
  {| trace := trace w;
     listeners := listeners w ++ [(name, cb)];
     exit_status := exit_status w |}.

Definition terminate (code : Z) (w : World) : World :=
  {| trace := trace w;
     listeners := listeners w;
     exit_status := Some code |}.

(** Reading a data property: recorded, never raises. *)
Definition property {A} (c : HostCall) (v : A) : M World A :=
  fun w => (Normal v, record c w).

(** Calling a native function: recorded, then refused or carried out. *)
Definition native {A} (m : Machine) (c : HostCall) (result : A)
    (effect : World -> World) : M World A :=
  fun w =>
    match raises m c w with
    | Some e => (Throw e, record c w)
    | None => (Normal result, effect (record c w))
    end.

(** Calling the native exit: recorded, then refused or carried out, and
    then the process has ended and the call does not return. *)
Definition native_exit (m : Machine) (c : HostCall) (code : Z) : Exits World :=
  fun w =>
    match raises m c w with
    | Some e => (Raises e, record c w)
    | None => (Ends code, terminate code (record c w))
    end.

Definition machine_Deno (m : Machine) : DenoNamespace World := {|
  Deno_args := property Get_Deno_args (user_args m);
  Deno_addSignalListener := fun name cb =>
    native m (Call_Deno_addSignalListener name cb) tt (attach name cb);
  Deno_stdout_writeSync := fun bytes =>
    native m (Call_Deno_writeSync Stdout bytes)
           (N.of_nat (List.length bytes)) (fun w => w);
  Deno_stderr_writeSync := fun bytes =>
    native m (Call_Deno_writeSync Stderr bytes)
           (N.of_nat (List.length bytes)) (fun w => w);
  Deno_exit := fun code => native_exit m (Call_Deno_exit code) code
|}.

Definition machine_process (m : Machine) : NodeProcess World := {|
  process_argv :=
    property Get_process_argv (executable m :: script m :: user_args m);
  process_on := fun name cb =>
    native m (Call_process_on name cb) tt (attach name cb);
  process_stdout_write := fun chunk =>
    native m (Call_process_write Stdout chunk) true (fun w => w);
  process_stderr_write := fun chunk =>
    native m (Call_process_write Stderr chunk) true (fun w => w);
  process_exit := fun code => native_exit m (Call_process_exit code) code
|}.

Definition machine_host (m : Machine) : Host World := {|
  globalThis_Deno := if has_Deno m then Some (machine_Deno m) else None;
  process := machine_process m
|}.

(** The text a recorded write carries. *)
Definition written_text (c : HostCall) : option JsString :=
  match c with
  | Call_Deno_writeSync _ bytes => TextDecoder_decode bytes
  | Call_process_write _ chunk => Some chunk
  | _ => None
  end.

Definition written_to (c : HostCall) : option Stream :=
  match c with
  | Call_Deno_writeSync fd _ => Some fd
  | Call_process_write fd _ => Some fd
  | _ => None
  end.

(** What the spec asks of [args]: the arguments the user supplied, in
    order, nothing else. *)
Definition spec_args (m : Machine) : list JsString := user_args m.

(** *** Sample machines *)

Definition TypeError (msg : string) : JsError := mkError "TypeError" msg.

(** An operating system without the named signals: there
    [Deno.addSignalListener] raises a [TypeError]. *)
Definition unsupported (names : list JsString) (c : HostCall) (_ : World)
    : option JsError :=
  match c with
  | Call_Deno_addSignalListener name _ =>
      if inhabits name names then Some (TypeError "Invalid signal") else None
  | _ => None
  end.

Definition sample (deno : bool) (argv : list JsString)
    (raises : HostCall -> World -> option JsError) : Machine := {|
  has_Deno := deno;
  executable := lit (if deno then "/usr/bin/deno" else "/usr/bin/node");
  script := lit "/app/main.ts";
  user_args := argv;
  raises := raises
|}.

(** Linux: no SIGINFO. *)
Definition linux (deno : bool) : Machine :=
  sample deno [lit "--port"; lit "8080"] (unsupported [lit "SIGINFO"]).

(** Windows: no SIGHUP, SIGUSR1, SIGUSR2, SIGINFO. *)
Definition windows (deno : bool) : Machine :=
  sample deno []
    (unsupported (map lit ["SIGHUP"; "SIGUSR1"; "SIGUSR2"; "SIGINFO"]%string)).

(** A host on which every native call fails with the same error. *)
Definition broken (deno : bool) (e : JsError) : Machine :=
  sample deno [lit "x"] (fun _ _ => Some e).

(** ** What the claims observe *)

(** [op s] asks the host for exactly one more write, on [fd], whose
    content reads back as [s]. *)
Definition writes_once (op : JsString -> M World unit) (fd : Stream)
    (s : JsString) (w : World) : Prop :=
  exists c,
    trace (snd (op s w)) = trace w ++ [c]
    /\ written_to c = Some fd
    /\ written_text c = Some s.

(** Some name the type [ty] admits makes [op] ask the host to register a
    listener under the string [s]. *)
Definition admits {ty : LiteralUnion}
    (op : Literal ty -> Callback -> M World unit)
    (request : JsString -> Callback -> HostCall) (s : JsString) : Prop :=
  exists n : Literal ty,
    forall cb w, trace (snd (op n cb w)) = trace w ++ [request s cb].

(** The host recognises the signal [name]: registering it never raises. *)
Definition recognises (m : Machine) (name : JsString) : Prop :=
  forall cb w,
    raises m (Call_Deno_addSignalListener name cb) w = None
    /\ raises m (Call_process_on name cb) w = None.

(** After [sig name cb1; sig name cb2] the registry holds what it held,
    then [cb1], then [cb2]. *)
Definition retains_both (sig : JsString -> Callback -> M World unit)
    (name : JsString) (cb1 cb2 : Callback) (w : World) : Prop :=
  listeners (snd (bind (sig name cb1) (fun _ => sig name cb2) w))
  = listeners w ++ [(name, cb1); (name, cb2)].

(** The scalar values of [s] are code points, and spell [s] again. *)
Definition scalars_ok (s : JsString) : Prop :=
  Forall (fun c => (c < 0x110000)%N) (to_scalar_values s)
  /\ from_scalar_values (to_scalar_values s) = s.

(** A Unicode scalar value: a code point that is not a surrogate. *)
Definition scalar_value (c : N) : bool :=
  ((c <? 0x110000) && negb ((0xD800 <=? c) && (c <=? 0xDFFF)))%N.

(** [op] fails exactly when the host primitive [prim] fails, with the
    same thrown value and the same world. *)
Definition propagates {W A B} (op : M W A) (prim : M W B) : Prop :=
  forall w e w', op w = (Throw e, w') <-> prim w = (Throw e, w').

(** The same for [exit]: it fails exactly when the host's exit fails, and
    ends the process exactly when the host's exit does, with the same code. *)
Definition propagates_exit {W} (op prim : Exits W) : Prop :=
  forall w w',
    (forall e, op w = (Raises e, w') <-> prim w = (Raises e, w'))
    /\ (forall code, op w = (Ends code, w') <-> prim w = (Ends code, w')).

(** Two failures that have nothing to do with signal support. *)
Definition stack_overflow : JsError :=
  mkError "RangeError" "Maximum call stack size exceeded".

Definition EPIPE : JsError := mkError "Error" "write EPIPE".

(** The class of the handle a completion carries. *)
Definition class_of {W} (c : Completion (Runtime W)) : option Class :=
  match c with
  | Normal r => Some (constructor r)
  | Throw _ => None
  end.

(** ** Callers

    The loops and sequences in which test.ts and the example of mod.ts use
    a handle. *)

(** [for (const x of xs) { body(x) }] *)
Fixpoint for_of {W A} (xs : list A) (body : A -> M W unit) : M W unit :=
  match xs with
  | [] => ret tt
  | x :: rest => bind (body x) (fun _ => for_of rest body)
  end.

(** One [runtime.signal(name, cb)] after another. *)
Definition register_each {W} (r : Runtime W)
    (regs : list (JsString * Callback)) : M W unit :=
  for_of regs (fun reg => signal r (fst reg) (snd reg)).

(** [runtime.stdout(s)] or [runtime.stderr(s)]. *)
Definition write {W} (r : Runtime W) (fd : Stream) (s : JsString) : M W unit :=
  match fd with
  | Stdout => stdout r s
  | Stderr => stderr r s
  end.

(** One write after another, on either stream. *)
Definition write_each {W} (r : Runtime W)
    (ops : list (Stream * JsString)) : M W unit :=
  for_of ops (fun op => write r (fst op) (snd op)).

(** ** Observing the recording host *)

(** The handles of both builds on a machine. *)
Definition handles (m : Machine) : list (Runtime World) :=
  [Full.NodeRuntime (machine_host m); Full.DenoRuntime (machine_host m);
   Restricted.NodeRuntime (machine_host m);
   Restricted.DenoRuntime (machine_host m)].

(** A handle whose class the machine can serve. *)
Definition runs_on (r : Runtime World) (m : Machine) : Prop :=
  In r (handles m)
  /\ (constructor r = DenoRuntimeClass -> has_Deno m = true).

(** The request each operation of a class makes of the host. *)
Definition args_request (cls : Class) : HostCall :=
  match cls with
  | DenoRuntimeClass => Get_Deno_args
  | NodeRuntimeClass => Get_process_argv
  end.

Definition write_request (cls : Class) (fd : Stream) (s : JsString) : HostCall :=
  match cls with
  | DenoRuntimeClass => Call_Deno_writeSync fd (TextEncoder_encode s)
  | NodeRuntimeClass => Call_process_write fd s
  end.

Definition exit_request (cls : Class) (code : Z) : HostCall :=
  match cls with
  | DenoRuntimeClass => Call_Deno_exit code
  | NodeRuntimeClass => Call_process_exit code
  end.

Definition signal_request (cls : Class) (reg : JsString * Callback) : HostCall :=
  match cls with
  | DenoRuntimeClass => Call_Deno_addSignalListener (fst reg) (snd reg)
  | NodeRuntimeClass => Call_process_on (fst reg) (snd reg)
  end.

Definition Stream_eqb (a b : Stream) : bool :=
  match a, b with
  | Stdout, Stdout | Stderr, Stderr => true
  | _, _ => false
  end.

(** The texts written to [fd], oldest first. *)
Definition stream_texts (fd : Stream) (tr : list HostCall)
    : list (option JsString) :=
  map written_text
    (filter (fun c => match written_to c with
                      | Some fd' => Stream_eqb fd fd'
                      | None => false
                      end) tr).

(** The bytes a recorded [writeSync] was handed. *)
Definition written_bytes (c : HostCall) : list N :=
  match c with
  | Call_Deno_writeSync _ bytes => bytes
  | _ => []
  end.

(** The strings of [ops] meant for [fd], in order. *)
Definition texts_for (fd : Stream) (ops : list (Stream * JsString))
    : list JsString :=
  map snd (filter (fun op => Stream_eqb fd (fst op)) ops).

(** The host never refuses a write. *)
Definition writes_accepted (m : Machine) : Prop :=
  forall fd w,
    (forall chunk, raises m (Call_process_write fd chunk) w = None)
    /\ (forall bytes, raises m (Call_Deno_writeSync fd bytes) w = None).

(** Whether the host registers a signal for a class depends on the name
    alone: [f] gives the error it raises, if any. *)
Definition signal_support (m : Machine) (cls : Class)
    (f : JsString -> option JsError) : Prop :=
  forall name cb w, raises m (signal_request cls (name, cb)) w = f name.

(** The state after some registrations were requested and some kept. *)
Definition after_registrations (cls : Class)
    (requested kept : list (JsString * Callback)) (w : World) : World :=
  {| trace := trace w ++ map (signal_request cls) requested;
     listeners := listeners w ++ kept;
     exit_status := exit_status w |}.

Definition supported (f : JsString -> option JsError)
    (reg : JsString * Callback) : bool :=
  match f (fst reg) with
  | None => true
  | Some _ => false
  end.

(** What a statement leaves alone. *)
Definition keeps_registry {R} (p : World -> R * World) : Prop :=
  forall w, listeners (snd (p w)) = listeners w.

Definition keeps_exit_status {R} (p : World -> R * World) : Prop :=
  forall w, exit_status (snd (p w)) = exit_status w.

Unset Implicit Arguments.

(** * Properties *)

(** ** UTF-8 and UTF-16 round trips *)

Local Open Scope N_scope.

Ltac euclid := zify; Z.to_euclidean_division_equations; lia.

Ltac decide_tests :=
  repeat match goal with
    | |- context [?a <? ?b] =>
        destruct (N.ltb_spec a b); [ | try (exfalso; euclid) ];
        try (exfalso; euclid)
    | |- context [?a <=? ?b] =>
        destruct (N.leb_spec a b); [ | try (exfalso; euclid) ];
        try (exfalso; euclid)
    end.

Lemma utf8_decode_encode_scalar c rest :
  c < 0x110000 ->
  utf8_decode (utf8_encode_scalar c ++ rest)
  = option_map (cons c) (utf8_decode rest).
Proof.
  intros Hc. unfold utf8_encode_scalar.
  destruct (N.ltb_spec c 0x80); [ | destruct (N.ltb_spec c 0x800);
    [ | destruct (N.ltb_spec c 0x10000) ] ];
  cbn [app utf8_decode]; unfold is_continuation;
  decide_tests; cbn [andb]; do 2 f_equal; euclid.
Qed.

Lemma utf8_decode_encode cs :
  Forall (fun c => c < 0x110000) cs ->
  utf8_decode (flat_map utf8_encode_scalar cs) = Some cs.
Proof.
  induction 1 as [ | c cs Hc _ IH ]; [ reflexivity | ].
  cbn [flat_map]. now rewrite utf8_decode_encode_scalar, IH.
Qed.

Lemma isWellFormed_pair u v rest :
  is_high_surrogate u = true ->
  isWellFormed (u :: v :: rest) = is_low_surrogate v && isWellFormed rest.
Proof. intros H. cbn [isWellFormed]. now rewrite H. Qed.

Lemma isWellFormed_unit u rest :
  is_high_surrogate u = false ->
  isWellFormed (u :: rest)
  = negb (is_low_surrogate u) && (code_unit u && isWellFormed rest).
Proof.
  intros H. cbn [isWellFormed]. rewrite H.
  now destruct (is_low_surrogate u).
Qed.

Lemma to_scalar_values_pair u v rest :
  is_high_surrogate u = true -> is_low_surrogate v = true ->
  to_scalar_values (u :: v :: rest)
  = (0x10000 + (u - 0xD800) * 0x400 + (v - 0xDC00)) :: to_scalar_values rest.
Proof. intros Hu Hv. cbn [to_scalar_values]. now rewrite Hu, Hv. Qed.

Lemma to_scalar_values_unit u rest :
  is_high_surrogate u = false -> is_low_surrogate u = false ->
  to_scalar_values (u :: rest) = u :: to_scalar_values rest.
Proof. intros Hu Hv. cbn [to_scalar_values]. now rewrite Hu, Hv. Qed.

Lemma scalars_ok_unit u rest :
  is_high_surrogate u = false ->
  isWellFormed (u :: rest) = true -> scalars_ok rest -> scalars_ok (u :: rest).
Proof.
  intros Hh Hwf [Hb Heq]. rewrite isWellFormed_unit in Hwf by exact Hh.
  apply andb_true_iff in Hwf as [Hl [Hu _]%andb_true_iff].
  apply negb_true_iff in Hl. apply N.ltb_lt in Hu.
  unfold scalars_ok. rewrite to_scalar_values_unit by assumption.
  split; [ constructor; [ lia | exact Hb ] | ].
  unfold from_scalar_values in *. cbn [flat_map]. rewrite Heq.
  unfold utf16_encode_scalar. now apply N.ltb_lt in Hu as ->.
Qed.

Lemma scalars_ok_pair u v rest :
  is_high_surrogate u = true ->
  isWellFormed (u :: v :: rest) = true -> scalars_ok rest ->
  scalars_ok (u :: v :: rest).
Proof.
  intros Hh Hwf [Hb Heq]. rewrite isWellFormed_pair in Hwf by exact Hh.
  apply andb_true_iff in Hwf as [Hl _].
  unfold scalars_ok. rewrite to_scalar_values_pair by assumption.
  apply andb_true_iff in Hh as [Hh1%N.leb_le Hh2%N.leb_le].
  apply andb_true_iff in Hl as [Hl1%N.leb_le Hl2%N.leb_le].
  split; [ constructor; [ lia | exact Hb ] | ].
  unfold from_scalar_values in *. cbn [flat_map]. rewrite Heq.
  unfold utf16_encode_scalar.
  destruct (N.ltb_spec (0x10000 + (u - 0xD800) * 0x400 + (v - 0xDC00)) 0x10000);
    [ lia | ].
  cbn [app]. do 2 f_equal; [ euclid | f_equal; euclid ].
Qed.

Lemma isWellFormed_tail u rest :
  is_high_surrogate u = false ->
  isWellFormed (u :: rest) = true -> isWellFormed rest = true.
Proof.
  intros Hh Hwf. rewrite isWellFormed_unit in Hwf by exact Hh.
  now apply andb_true_iff in Hwf as [_ [_ ?]%andb_true_iff].
Qed.

Lemma well_formed_scalars s : isWellFormed s = true -> scalars_ok s.
Proof.
  enough (H : (isWellFormed s = true -> scalars_ok s)
              /\ forall u, isWellFormed (u :: s) = true -> scalars_ok (u :: s))
    by apply H.
  induction s as [ | v rest [IH1 IH2] ].
  - split; [ now split | ].
    intros u Hwf. destruct (is_high_surrogate u) eqn:Hh.
    + cbn [isWellFormed] in Hwf. now rewrite Hh in Hwf.
    + apply scalars_ok_unit; [ assumption .. | now split ].
  - split; [ apply IH2 | ].
    intros u Hwf. destruct (is_high_surrogate u) eqn:Hh.
    + apply scalars_ok_pair; [ assumption .. | ].
      rewrite isWellFormed_pair in Hwf by exact Hh.
      apply andb_true_iff in Hwf as [_ Hr]. now apply IH1.
    + apply scalars_ok_unit; [ assumption .. | ].
      apply IH2. eapply isWellFormed_tail; eassumption.
Qed.

(** Encoding a well-formed string loses nothing. *)
Lemma decode_encode s :
  isWellFormed s = true -> TextDecoder_decode (TextEncoder_encode s) = Some s.
Proof.
  intros [Hb Heq]%well_formed_scalars.
  unfold TextDecoder_decode, TextEncoder_encode.
  rewrite utf8_decode_encode by exact Hb. cbn. now rewrite Heq.
Qed.

Lemma scalar_value_lt c : scalar_value c = true -> c < 0x110000.
Proof. now intros [H%N.ltb_lt _]%andb_true_iff. Qed.

Lemma to_scalar_values_lone u v rest :
  is_high_surrogate u = true -> is_low_surrogate v = false ->
  to_scalar_values (u :: v :: rest) = 0xFFFD :: to_scalar_values (v :: rest).
Proof. intros Hu Hv. cbn [to_scalar_values]. now rewrite Hu, Hv. Qed.

Lemma to_scalar_values_scalar s :
  forallb code_unit s = true ->
  forallb scalar_value (to_scalar_values s) = true.
Proof.
  enough (H : (forallb code_unit s = true ->
               forallb scalar_value (to_scalar_values s) = true)
              /\ forall u, forallb code_unit (u :: s) = true ->
                   forallb scalar_value (to_scalar_values (u :: s)) = true)
    by apply H.
  assert (Hunit : forall u rest,
             code_unit u = true ->
             forallb scalar_value (to_scalar_values rest) = true ->
             is_high_surrogate u = false ->
             forallb scalar_value (to_scalar_values (u :: rest)) = true).
  { intros u rest Hu Hr Hh. cbn [to_scalar_values]. rewrite Hh.
    destruct (is_low_surrogate u) eqn:Hl; cbn [forallb]; rewrite Hr;
      [ reflexivity | ].
    rewrite andb_true_r. unfold scalar_value, code_unit in *.
    unfold is_high_surrogate, is_low_surrogate in *.
    apply N.ltb_lt in Hu.
    destruct (N.leb_spec 0xD800 u), (N.leb_spec u 0xDBFF),
      (N.leb_spec 0xDC00 u), (N.leb_spec u 0xDFFF),
      (N.ltb_spec u 0x110000); cbn in *; try reflexivity;
      try discriminate; lia. }
  induction s as [ | v rest [IH1 IH2] ].
  - split; [ reflexivity | ].
    intros u [Hu _]%andb_true_iff.
    destruct (is_high_surrogate u) eqn:Hh; [ | now apply Hunit ].
    cbn [to_scalar_values]. now rewrite Hh.
  - split; [ apply IH2 | ].
    intros u [Hu Hrest]%andb_true_iff.
    destruct (is_high_surrogate u) eqn:Hh.
    + destruct (is_low_surrogate v) eqn:Hl.
      * rewrite to_scalar_values_pair by assumption.
        cbn [forallb]. cbn [forallb] in Hrest.
        apply andb_true_iff in Hrest as [_ Hrest].
        rewrite (IH1 Hrest), andb_true_r.
        unfold is_high_surrogate, is_low_surrogate in *.
        apply andb_true_iff in Hh as [Hh1%N.leb_le Hh2%N.leb_le].
        apply andb_true_iff in Hl as [Hl1%N.leb_le Hl2%N.leb_le].
        unfold scalar_value.
        destruct (N.ltb_spec (0x10000 + (u - 0xD800) * 0x400 + (v - 0xDC00))
                    0x110000); [ | lia ].
        destruct (N.leb_spec (0x10000 + (u - 0xD800) * 0x400 + (v - 0xDC00))
                    0xDFFF); [ lia | ].
        now rewrite andb_false_r.
      * rewrite to_scalar_values_lone by assumption.
        cbn [forallb]. now rewrite (IH2 _ Hrest).
    + apply Hunit; [ assumption | now apply IH2 | assumption ].
Qed.

Lemma isWellFormed_from_scalar_values cs :
  forallb scalar_value cs = true -> isWellFormed (from_scalar_values cs) = true.
Proof.
  induction cs as [ | c cs IH ]; [ reflexivity | ].
  intros [Hc Hcs]%andb_true_iff. specialize (IH Hcs).
  change (from_scalar_values (c :: cs))
    with (utf16_encode_scalar c ++ from_scalar_values cs).
  unfold scalar_value in Hc.
  apply andb_true_iff in Hc as [Hlt%N.ltb_lt Hns%negb_true_iff].
  unfold utf16_encode_scalar.
  destruct (N.ltb_spec c 0x10000) as [Hbmp | Hsup]; cbn [app].
  - assert (Hh : is_high_surrogate c = false).
    { unfold is_high_surrogate.
      destruct (N.leb_spec 0xD800 c), (N.leb_spec c 0xDBFF),
        (N.leb_spec c 0xDFFF); cbn in *; try reflexivity;
        try discriminate; lia. }
    rewrite isWellFormed_unit by exact Hh. rewrite IH.
    unfold code_unit, is_low_surrogate.
    apply N.ltb_lt in Hbmp as ->.
    destruct (N.leb_spec 0xD800 c), (N.leb_spec 0xDC00 c),
      (N.leb_spec c 0xDFFF); cbn in *; try reflexivity;
      try discriminate; lia.
  - rewrite isWellFormed_pair, IH.
    + rewrite andb_true_r. unfold is_low_surrogate.
      apply andb_true_iff; split; apply N.leb_le; euclid.
    + unfold is_high_surrogate.
      apply andb_true_iff; split; apply N.leb_le; euclid.
Qed.

Lemma forallb_scalar_lt cs :
  forallb scalar_value cs = true -> Forall (fun c => c < 0x110000) cs.
Proof.
  rewrite forallb_forall, Forall_forall.
  intros H c Hin. now apply scalar_value_lt, H.
Qed.

(** What reads back from an encoded string is always well-formed. *)
Lemma decode_encode_well_formed s :
  forallb code_unit s = true ->
  exists t, TextDecoder_decode (TextEncoder_encode s) = Some t
            /\ isWellFormed t = true.
Proof.
  intros Hs%to_scalar_values_scalar.
  exists (from_scalar_values (to_scalar_values s)). split.
  - unfold TextDecoder_decode, TextEncoder_encode.
    now rewrite utf8_decode_encode by now apply forallb_scalar_lt.
  - now apply isWellFormed_from_scalar_values.
Qed.

Example encode_hello_world_globe :
  TextEncoder_encode [0x48; 0x4E16; 0xD83C; 0xDF0D; 0x0A]
  = [0x48; 0xE4; 0xB8; 0x96; 0xF0; 0x9F; 0x8C; 0x8D; 0x0A].
Proof. reflexivity. Qed.

Example encode_lone_surrogate :
  TextEncoder_encode [0xD800] = [0xEF; 0xBF; 0xBD].
Proof. reflexivity. Qed.

Local Close Scope N_scope.

(** ** Running statements *)

Lemma void_throw_iff {W A} (c : M W A) w e w' :
  void c w = (Throw e, w') <-> c w = (Throw e, w').
Proof.
  unfold void, bind, ret.
  destruct (c w) as [[a | e0] w0]; split; intros H;
    try discriminate; now inversion H.
Qed.

Lemma try_catch_discard {W} (c : M W unit) w :
  fst (try_catch c (fun _ => ret tt) w) = Normal tt
  /\ snd (try_catch c (fun _ => ret tt) w) = snd (c w).
Proof.
  unfold try_catch, ret. now destruct (c w) as [[[] | e] w'].
Qed.

Lemma with_Deno {W A} (host : Host W) d (k : DenoNamespace W -> M W A) :
  globalThis_Deno host = Some d -> bind (Deno host) k = k d.
Proof. intros H. unfold bind, Deno. now rewrite H. Qed.

Lemma without_Deno {W A} (host : Host W) (k : DenoNamespace W -> M W A) w :
  globalThis_Deno host = None ->
  bind (Deno host) k w = (Throw (ReferenceError "Deno"), w).
Proof. intros H. unfold bind, Deno. now rewrite H. Qed.

Lemma machine_Deno_present m :
  has_Deno m = true -> globalThis_Deno (machine_host m) = Some (machine_Deno m).
Proof. cbn. now intros ->. Qed.

Lemma native_accepted {A} (m : Machine) (c : HostCall) (r : A)
    (effect : World -> World) (w : World) :
  raises m c w = None -> native m c r effect w = (Normal r, effect (record c w)).
Proof. unfold native. now intros ->. Qed.

Lemma inhabits_spec s ty : inhabits s ty = true <-> In s ty.
Proof.
  unfold inhabits. rewrite existsb_exists. unfold JsString_eqb. split.
  - intros [x [Hin Heq]]. destruct (list_eq_dec N.eq_dec s x); now subst.
  - intros Hin. exists s. split; [ exact Hin | ].
    now destruct (list_eq_dec N.eq_dec s s).
Qed.

Lemma propagates_void {W A} (c : M W A) : propagates (void c) c.
Proof. intros w e w'. apply void_throw_iff. Qed.

Lemma propagates_refl {W A} (c : M W A) : propagates c c.
Proof. now intros w e w'. Qed.

Lemma propagates_exit_refl {W} (c : Exits W) : propagates_exit c c.
Proof. now intros w w'. Qed.

Lemma exit_with_Deno {W} (host : Host W) d (k : DenoNamespace W -> Exits W) :
  globalThis_Deno host = Some d -> bind_exit (Deno host) k = k d.
Proof. intros H. unfold bind_exit, Deno. now rewrite H. Qed.

Lemma exit_without_Deno {W} (host : Host W) (k : DenoNamespace W -> Exits W) w :
  globalThis_Deno host = None ->
  bind_exit (Deno host) k w = (Raises (ReferenceError "Deno"), w).
Proof. intros H. unfold bind_exit, Deno. now rewrite H. Qed.

Lemma propagates_slice {W} (c : M W (list JsString)) :
  propagates (bind c (fun argv => ret (slice 2 argv))) c.
Proof.
  intros w e w'. unfold bind, ret.
  destruct (c w) as [[a | e0] w0]; split; intros H;
    try discriminate; exact H.
Qed.

(** ** Signal registration *)

(** C1, as amended: in the full build, for every name of its vocabulary,
    [signal(name, cb)] returns normally on every host, whatever the native
    registration does; in the restricted build [signal] is the native
    registration itself, so it returns normally exactly when the native call
    does and an error the native call raises reaches the caller. *)
Theorem signal_returns_normally_where_guarded :
  forall W (host : Host W) (cb : Callback) (w : W),
    (forall name, inhabits name Full.Runtime_signal_name = true ->
       fst (Full.DenoRuntime_signal host name cb w) = Normal tt
       /\ fst (Full.NodeRuntime_signal host name cb w) = Normal tt)
    /\ (forall name, inhabits name Restricted.Runtime_signal_name = true ->
          Restricted.NodeRuntime_signal host name cb w
          = process_on (process host) name cb w
          /\ forall d, globalThis_Deno host = Some d ->
               Restricted.DenoRuntime_signal host name cb w
               = Deno_addSignalListener d name cb w).
Proof.
  intros W host cb w. split.
  - intros name _. split; apply try_catch_discard.
  - intros name _. split; [ reflexivity | ].
    intros d Hd. unfold Restricted.DenoRuntime_signal.
    now rewrite (with_Deno host d _ Hd).
Qed.

Lemma signal_returns_normally_where_guarded_witness :
  inhabits (lit "SIGINFO") Full.Runtime_signal_name = true
  /\ fst (Full.DenoRuntime_signal (machine_host (linux true))
            (lit "SIGINFO") 7 boot) = Normal tt
  /\ fst (Full.NodeRuntime_signal (machine_host (linux false))
            (lit "SIGINFO") 7 boot) = Normal tt.
Proof.
  split; [ reflexivity | ]. split.
  - apply (proj1 (signal_returns_normally_where_guarded _
                    (machine_host (linux true)) 7 boot) (lit "SIGINFO")).
    reflexivity.
  - apply (proj1 (signal_returns_normally_where_guarded _
                    (machine_host (linux false)) 7 boot) (lit "SIGINFO")).
    reflexivity.
Defined.

(** C1 as stated fails in the restricted build: SIGINFO is in its
    vocabulary, and on a host without that signal [DenoRuntime.signal]
    lets the native error through. *)
Lemma unguarded_signal_raises :
  inhabits (lit "SIGINFO") Restricted.Runtime_signal_name = true
  /\ Restricted.DenoRuntime_signal (machine_host (linux true))
       (lit "SIGINFO") 7 boot
     = (Throw (TypeError "Invalid signal"),
        record (Call_Deno_addSignalListener (lit "SIGINFO") 7) boot).
Proof. split; reflexivity. Qed.

(** C10: in the full build the guard around the native registration
    discards every thrown value, whatever it is: when the native call
    raises [e], [signal] returns normally in the world the native call
    left, and [signal] never completes by a throw. *)
Theorem signal_guard_discards_every_error :
  forall W (host : Host W) (name : JsString) (cb : Callback) (w : W),
    inhabits name Full.Runtime_signal_name = true ->
    (forall e w', process_on (process host) name cb w = (Throw e, w') ->
       Full.NodeRuntime_signal host name cb w = (Normal tt, w'))
    /\ (forall d e w', globalThis_Deno host = Some d ->
          Deno_addSignalListener d name cb w = (Throw e, w') ->
          Full.DenoRuntime_signal host name cb w = (Normal tt, w'))
    /\ (forall e, fst (Full.NodeRuntime_signal host name cb w) <> Throw e)
    /\ (forall e, fst (Full.DenoRuntime_signal host name cb w) <> Throw e).
Proof.
  intros W host name cb w _. repeat split.
  - intros e w' H. unfold Full.NodeRuntime_signal, try_catch. now rewrite H.
  - intros d e w' Hd H. unfold Full.DenoRuntime_signal.
    rewrite (with_Deno host d _ Hd). unfold try_catch. now rewrite H.
  - intros e. unfold Full.NodeRuntime_signal.
    now rewrite (proj1 (try_catch_discard _ w)).
  - intros e. unfold Full.DenoRuntime_signal.
    now rewrite (proj1 (try_catch_discard _ w)).
Qed.

Lemma signal_guard_discards_every_error_witness :
  Full.NodeRuntime_signal (machine_host (broken false stack_overflow))
    (lit "SIGINT") 3 boot
  = (Normal tt, record (Call_process_on (lit "SIGINT") 3) boot)
  /\ Full.DenoRuntime_signal (machine_host (broken true stack_overflow))
       (lit "SIGINT") 3 boot
     = (Normal tt, record (Call_Deno_addSignalListener (lit "SIGINT") 3) boot).
Proof.
  split.
  - apply (proj1 (signal_guard_discards_every_error _
             (machine_host (broken false stack_overflow)) (lit "SIGINT") 3
             boot eq_refl) stack_overflow).
    reflexivity.
  - apply (proj1 (proj2 (signal_guard_discards_every_error _
             (machine_host (broken true stack_overflow)) (lit "SIGINT") 3
             boot eq_refl))
             (machine_Deno (broken true stack_overflow)) stack_overflow);
      reflexivity.
Defined.

(** ** The registry *)

(** C5, as amended: in the full build, for every name of the vocabulary
    that the host recognises and every pair of callbacks, after
    [signal(name, cb1)] and then [signal(name, cb2)] the host registry holds
    everything it held before, followed by [cb1] and then [cb2] under that
    name: the second registration neither replaces nor removes the first. *)
Theorem signal_retains_both_callbacks :
  forall (m : Machine) (name : JsString) (cb1 cb2 : Callback) (w : World),
    inhabits name Full.Runtime_signal_name = true ->
    recognises m name ->
    retains_both (Full.NodeRuntime_signal (machine_host m)) name cb1 cb2 w
    /\ (has_Deno m = true ->
        retains_both (Full.DenoRuntime_signal (machine_host m)) name cb1 cb2 w).
Proof.
  intros m name cb1 cb2 w _ Hrec. split.
  - unfold retains_both, Full.NodeRuntime_signal, bind, try_catch. cbn.
    rewrite !native_accepted by apply Hrec. cbn.
    now rewrite <- app_assoc.
  - intros Hd. unfold retains_both, Full.DenoRuntime_signal.
    rewrite !(with_Deno _ _ _ (machine_Deno_present m Hd)).
    unfold bind, try_catch. cbn.
    rewrite !native_accepted by apply Hrec. cbn.
    now rewrite <- app_assoc.
Qed.

Lemma linux_recognises_SIGUSR1 deno : recognises (linux deno) (lit "SIGUSR1").
Proof. intros cb w. split; reflexivity. Qed.

Lemma signal_retains_both_callbacks_witness :
  retains_both (Full.NodeRuntime_signal (machine_host (linux false)))
    (lit "SIGUSR1") 1 2 boot
  /\ retains_both (Full.DenoRuntime_signal (machine_host (linux true)))
       (lit "SIGUSR1") 1 2 boot.
Proof.
  split.
  - apply (signal_retains_both_callbacks (linux false) (lit "SIGUSR1") 1 2 boot
             eq_refl (linux_recognises_SIGUSR1 false)).
  - apply (proj2 (signal_retains_both_callbacks (linux true) (lit "SIGUSR1")
                    1 2 boot eq_refl (linux_recognises_SIGUSR1 true))).
    reflexivity.
Defined.

(** C5 as stated fails where the host does not recognise the name:
    SIGUSR1 is in the full vocabulary, both calls return normally, and the
    registry holds neither callback. *)
Lemma unsupported_signal_retains_nothing :
  inhabits (lit "SIGUSR1") Full.Runtime_signal_name = true
  /\ bind
       (Full.DenoRuntime_signal (machine_host (windows true)) (lit "SIGUSR1") 1)
       (fun _ =>
          Full.DenoRuntime_signal (machine_host (windows true)) (lit "SIGUSR1") 2)
       boot
     = (Normal tt,
        {| trace := [Call_Deno_addSignalListener (lit "SIGUSR1") 1;
                     Call_Deno_addSignalListener (lit "SIGUSR1") 2];
           listeners := [];
           exit_status := None |})
  /\ ~ retains_both (Full.DenoRuntime_signal (machine_host (windows true)))
         (lit "SIGUSR1") 1 2 boot.
Proof.
  split; [ reflexivity | ]. split; [ reflexivity | ].
  intros H; discriminate H.
Qed.

(** ** The signal vocabularies *)

Lemma Literal_unique (ty : LiteralUnion) (n1 n2 : Literal ty) :
  text n1 = text n2 -> n1 = n2.
Proof.
  destruct n1 as [s1 H1], n2 as [s2 H2]. cbn. intros <-.
  f_equal. apply UIP_dec, bool_dec.
Qed.

Lemma Deno_registration_requested m name cb w :
  has_Deno m = true ->
  trace (snd (Full.DenoRuntime_signal (machine_host m) name cb w))
  = trace w ++ [Call_Deno_addSignalListener name cb]
  /\ trace (snd (Restricted.DenoRuntime_signal (machine_host m) name cb w))
     = trace w ++ [Call_Deno_addSignalListener name cb].
Proof.
  intros Hd. unfold Full.DenoRuntime_signal, Restricted.DenoRuntime_signal.
  rewrite !(with_Deno _ _ _ (machine_Deno_present m Hd)).
  unfold try_catch. cbn. unfold native.
  now destruct (raises m _ w).
Qed.

Lemma Node_registration_requested m name cb w :
  trace (snd (Full.NodeRuntime_signal (machine_host m) name cb w))
  = trace w ++ [Call_process_on name cb]
  /\ trace (snd (Restricted.NodeRuntime_signal (machine_host m) name cb w))
     = trace w ++ [Call_process_on name cb].
Proof.
  unfold Full.NodeRuntime_signal, Restricted.NodeRuntime_signal, try_catch.
  cbn. unfold native. now destruct (raises m _ w).
Qed.

(** What a typed call can hand to the host is what inhabits the type. *)
Lemma admits_inhabitants (ty : LiteralUnion)
    (op : JsString -> Callback -> M World unit)
    (request : JsString -> Callback -> HostCall) (s : JsString) :
  (forall name cb w,
     trace (snd (op name cb w)) = trace w ++ [request name cb]) ->
  (forall a b cb, request a cb = request b cb -> a = b) ->
  admits (ty := ty) (fun n cb => op (text n) cb) request s
  <-> inhabits s ty = true.
Proof.
  intros Hop Hinj. unfold admits. split.
  - intros [[t Ht] H]. specialize (H 0 boot). cbn [text proj1_sig] in H.
    rewrite Hop in H. apply app_inj_tail in H as [_ H].
    apply Hinj in H. now subst.
  - intros H. exists (exist _ s H). intros cb w. apply Hop.
Qed.

(** C7: there are two vocabularies. A call of [signal] that the type
    checker admits, through the interface or on either class, can ask the
    host to register a listener under a string exactly when, in the full
    build, the string is one of SIGINT, SIGTERM, SIGHUP, SIGUSR1, SIGUSR2,
    SIGINFO and, in the restricted build, it is SIGTERM or SIGINFO: no name
    outside the set is accepted. In each build the interface and both
    classes declare the same type, without repeats, and a name of the type
    is determined by its string. *)
Theorem signal_vocabularies :
  forall s : JsString,
    (inhabits s Full.Runtime_signal_name = true
       <-> s = lit "SIGINT" \/ s = lit "SIGTERM" \/ s = lit "SIGHUP"
           \/ s = lit "SIGUSR1" \/ s = lit "SIGUSR2" \/ s = lit "SIGINFO")
    /\ (inhabits s Restricted.Runtime_signal_name = true
          <-> s = lit "SIGTERM" \/ s = lit "SIGINFO")
    /\ Full.DenoRuntime_signal_name = Full.Runtime_signal_name
    /\ Full.NodeRuntime_signal_name = Full.Runtime_signal_name
    /\ Restricted.DenoRuntime_signal_name = Restricted.Runtime_signal_name
    /\ Restricted.NodeRuntime_signal_name = Restricted.Runtime_signal_name
    /\ NoDup Full.Runtime_signal_name
    /\ NoDup Restricted.Runtime_signal_name
    /\ (forall m : Machine,
          (admits (Full.Runtime_signal (Full.NodeRuntime (machine_host m)))
             Call_process_on s
           <-> inhabits s Full.Runtime_signal_name = true)
          /\ (admits (Full.NodeRuntime_signal_typed (machine_host m))
                Call_process_on s
              <-> inhabits s Full.Runtime_signal_name = true)
          /\ (admits (Restricted.Runtime_signal
                        (Restricted.NodeRuntime (machine_host m)))
                Call_process_on s
              <-> inhabits s Restricted.Runtime_signal_name = true)
          /\ (admits (Restricted.NodeRuntime_signal_typed (machine_host m))
                Call_process_on s
              <-> inhabits s Restricted.Runtime_signal_name = true)
          /\ (has_Deno m = true ->
              (admits (Full.Runtime_signal (Full.DenoRuntime (machine_host m)))
                 Call_Deno_addSignalListener s
               <-> inhabits s Full.Runtime_signal_name = true)
              /\ (admits (Full.DenoRuntime_signal_typed (machine_host m))
                    Call_Deno_addSignalListener s
                  <-> inhabits s Full.Runtime_signal_name = true)
              /\ (admits (Restricted.Runtime_signal
                            (Restricted.DenoRuntime (machine_host m)))
                    Call_Deno_addSignalListener s
                  <-> inhabits s Restricted.Runtime_signal_name = true)
              /\ (admits (Restricted.DenoRuntime_signal_typed (machine_host m))
                    Call_Deno_addSignalListener s
                  <-> inhabits s Restricted.Runtime_signal_name = true)))
    /\ (forall n1 n2 : Literal Full.Runtime_signal_name,
          text n1 = text n2 -> n1 = n2)
    /\ (forall n1 n2 : Literal Restricted.Runtime_signal_name,
          text n1 = text n2 -> n1 = n2).
Proof.
  intros s. rewrite !inhabits_spec.
  split; [ | split; [ | do 4 (split; [ reflexivity | ]) ] ].
  - cbn [Full.Runtime_signal_name map In]. intuition congruence.
  - cbn [Restricted.Runtime_signal_name map In]. intuition congruence.
  - split; [ repeat constructor; cbn; intuition discriminate | ].
    split; [ repeat constructor; cbn; intuition discriminate | ].
    split; [ | split; intros n1 n2; apply Literal_unique ].
    intros m.
    assert (Hnode : forall a b cb,
              Call_process_on a cb = Call_process_on b cb -> a = b)
      by (intros a b cb H; now inversion H).
    assert (Hdeno : forall a b cb,
              Call_Deno_addSignalListener a cb
              = Call_Deno_addSignalListener b cb -> a = b)
      by (intros a b cb H; now inversion H).
    split; [ | split; [ | split; [ | split ] ] ].
    + apply (admits_inhabitants Full.Runtime_signal_name
               (Full.NodeRuntime_signal (machine_host m)));
        [ intros; apply Node_registration_requested | exact Hnode ].
    + apply (admits_inhabitants Full.NodeRuntime_signal_name
               (Full.NodeRuntime_signal (machine_host m)));
        [ intros; apply Node_registration_requested | exact Hnode ].
    + apply (admits_inhabitants Restricted.Runtime_signal_name
               (Restricted.NodeRuntime_signal (machine_host m)));
        [ intros; apply Node_registration_requested | exact Hnode ].
    + apply (admits_inhabitants Restricted.NodeRuntime_signal_name
               (Restricted.NodeRuntime_signal (machine_host m)));
        [ intros; apply Node_registration_requested | exact Hnode ].
    + intros Hd. split; [ | split; [ | split ] ].
      * apply (admits_inhabitants Full.Runtime_signal_name
                 (Full.DenoRuntime_signal (machine_host m)));
          [ intros; now apply Deno_registration_requested | exact Hdeno ].
      * apply (admits_inhabitants Full.DenoRuntime_signal_name
                 (Full.DenoRuntime_signal (machine_host m)));
          [ intros; now apply Deno_registration_requested | exact Hdeno ].
      * apply (admits_inhabitants Restricted.Runtime_signal_name
                 (Restricted.DenoRuntime_signal (machine_host m)));
          [ intros; now apply Deno_registration_requested | exact Hdeno ].
      * apply (admits_inhabitants Restricted.DenoRuntime_signal_name
                 (Restricted.DenoRuntime_signal (machine_host m)));
          [ intros; now apply Deno_registration_requested | exact Hdeno ].
Qed.

Lemma signal_vocabularies_witness :
  admits (Restricted.Runtime_signal
            (Restricted.DenoRuntime (machine_host (linux true))))
    Call_Deno_addSignalListener (lit "SIGTERM")
  /\ ~ admits (Restricted.Runtime_signal
                 (Restricted.DenoRuntime (machine_host (linux true))))
         Call_Deno_addSignalListener (lit "SIGINT")
  /\ ~ admits (Full.DenoRuntime_signal_typed (machine_host (linux true)))
         Call_Deno_addSignalListener (lit "SIGKILL").
Proof.
  split; [ | split ].
  - destruct (signal_vocabularies (lit "SIGTERM"))
      as (_ & _ & _ & _ & _ & _ & _ & _ & H & _).
    destruct (H (linux true)) as (_ & _ & _ & _ & Hd).
    destruct (Hd eq_refl) as (_ & _ & Hr & _). now apply Hr.
  - destruct (signal_vocabularies (lit "SIGINT"))
      as (_ & _ & _ & _ & _ & _ & _ & _ & H & _).
    destruct (H (linux true)) as (_ & _ & _ & _ & Hd).
    destruct (Hd eq_refl) as (_ & _ & Hr & _).
    intros Hadm. apply Hr in Hadm. discriminate Hadm.
  - destruct (signal_vocabularies (lit "SIGKILL"))
      as (_ & _ & _ & _ & _ & _ & _ & _ & H & _).
    destruct (H (linux true)) as (_ & _ & _ & _ & Hd).
    destruct (Hd eq_refl) as (_ & Hf & _).
    intros Hadm. apply Hf in Hadm. discriminate Hadm.
Defined.

Example SIGINT_not_in_restricted_vocabulary :
  inhabits (lit "SIGINT") Restricted.Runtime_signal_name = false
  /\ inhabits (lit "SIGKILL") Full.Runtime_signal_name = false.
Proof. split; reflexivity. Qed.

(** ** Selecting the implementation *)

(** C2: [getRuntime] returns the Deno implementation exactly when
    [globalThis.Deno] is present and the Node implementation exactly when it
    is absent, in both builds; two hosts that agree on the marker get a
    handle of the same class, whatever else differs. *)
Theorem getRuntime_selects_by_marker :
  forall W (host : Host W) (w : W),
    (fst (Full.getRuntime host w) = Normal (Full.DenoRuntime host)
       <-> globalThis_Deno host <> None)
    /\ (fst (Full.getRuntime host w) = Normal (Full.NodeRuntime host)
          <-> globalThis_Deno host = None)
    /\ (fst (Restricted.getRuntime host w) = Normal (Restricted.DenoRuntime host)
          <-> globalThis_Deno host <> None)
    /\ (fst (Restricted.getRuntime host w) = Normal (Restricted.NodeRuntime host)
          <-> globalThis_Deno host = None)
    /\ forall W' (host' : Host W') (w' : W'),
         ToBoolean (globalThis_Deno host) = ToBoolean (globalThis_Deno host') ->
         class_of (fst (Full.getRuntime host w))
         = class_of (fst (Full.getRuntime host' w'))
         /\ class_of (fst (Restricted.getRuntime host w))
            = class_of (fst (Restricted.getRuntime host' w')).
Proof.
  intros W host w.
  unfold Full.getRuntime, Restricted.getRuntime,
    Full.denoruntime_runtime, Full.noderuntime_runtime,
    Restricted.denoruntime_runtime, Restricted.noderuntime_runtime.
  split; [ | split; [ | split; [ | split ] ] ].
  1-4: destruct (globalThis_Deno host); cbn; split; intros H;
    first [ reflexivity | discriminate | now elim H ].
  intros W' host' w' H. rewrite H.
  now destruct (ToBoolean (globalThis_Deno host')).
Qed.

Lemma getRuntime_selects_by_marker_witness :
  class_of (fst (Full.getRuntime (machine_host (linux true)) boot))
  = class_of (fst (Full.getRuntime (machine_host (windows true))
                     (record Get_Deno_args boot)))
  /\ fst (Full.getRuntime (machine_host (linux false)) boot)
     = Normal (Full.NodeRuntime (machine_host (linux false))).
Proof.
  split.
  - destruct (getRuntime_selects_by_marker _ (machine_host (linux true)) boot)
      as (_ & _ & _ & _ & H).
    apply (H _ (machine_host (windows true)) (record Get_Deno_args boot)).
    reflexivity.
  - apply (proj1 (proj2 (getRuntime_selects_by_marker _
             (machine_host (linux false)) boot))).
    reflexivity.
Defined.

Example getRuntime_on_sample_hosts :
  class_of (fst (Full.getRuntime (machine_host (linux true)) boot))
  = Some DenoRuntimeClass
  /\ class_of (fst (Full.getRuntime (machine_host (linux false)) boot))
     = Some NodeRuntimeClass.
Proof. split; reflexivity. Qed.

(** C9: [getRuntime] returns normally and leaves the world as it found
    it, on every host and in both builds; its result does not depend on
    the world; on the recording host it adds no request to the trace (so it
    reads no argument vector and writes nothing) and no listener to the
    registry. *)
Theorem getRuntime_has_no_side_effect :
  forall W (host : Host W) (w : W),
    snd (Full.getRuntime host w) = w
    /\ snd (Restricted.getRuntime host w) = w
    /\ is_normal (fst (Full.getRuntime host w)) = true
    /\ is_normal (fst (Restricted.getRuntime host w)) = true
    /\ (forall w2, fst (Full.getRuntime host w2) = fst (Full.getRuntime host w))
    /\ (forall w2, fst (Restricted.getRuntime host w2)
                   = fst (Restricted.getRuntime host w))
    /\ forall (m : Machine) (v : World),
         trace (snd (Full.getRuntime (machine_host m) v)) = trace v
         /\ listeners (snd (Full.getRuntime (machine_host m) v)) = listeners v
         /\ trace (snd (Restricted.getRuntime (machine_host m) v)) = trace v
         /\ listeners (snd (Restricted.getRuntime (machine_host m) v))
            = listeners v.
Proof.
  intros W host w. unfold Full.getRuntime, Restricted.getRuntime.
  split; [ | split; [ | split; [ | split; [ | split; [ | split ] ] ] ] ].
  1-6: now destruct (ToBoolean (globalThis_Deno host)).
  intros m v. now destruct (ToBoolean (globalThis_Deno (machine_host m))).
Qed.

(** ** Failures of the host *)

(** C6: outside [signal] nothing is caught. On every host, [args],
    [stdout], [stderr] and [exit] of either class fail exactly when the host
    primitive they call fails, with the very value it threw and in the world
    it left ([exit] also ends the process exactly when the host's exit
    does); the restricted build, which has no guard at all, does the
    same. *)
Theorem host_failures_propagate_unmodified :
  forall W (host : Host W),
    (propagates (Full.NodeRuntime_args host) (process_argv (process host))
     /\ (forall s, propagates (Full.NodeRuntime_stdout host s)
                     (process_stdout_write (process host) s))
     /\ (forall s, propagates (Full.NodeRuntime_stderr host s)
                     (process_stderr_write (process host) s))
     /\ (forall code, propagates_exit (Full.NodeRuntime_exit host code)
                        (process_exit (process host) code)))
    /\ (forall d, globalThis_Deno host = Some d ->
          propagates (Full.DenoRuntime_args host) (Deno_args d)
          /\ (forall s, propagates (Full.DenoRuntime_stdout host s)
                          (Deno_stdout_writeSync d (TextEncoder_encode s)))
          /\ (forall s, propagates (Full.DenoRuntime_stderr host s)
                          (Deno_stderr_writeSync d (TextEncoder_encode s)))
          /\ (forall code, propagates_exit (Full.DenoRuntime_exit host code)
                             (Deno_exit d code)))
    /\ (propagates (Restricted.NodeRuntime_args host)
          (process_argv (process host))
        /\ (forall s, propagates (Restricted.NodeRuntime_stdout host s)
                        (process_stdout_write (process host) s))
        /\ (forall s, propagates (Restricted.NodeRuntime_stderr host s)
                        (process_stderr_write (process host) s))
        /\ (forall code, propagates_exit (Restricted.NodeRuntime_exit host code)
                           (process_exit (process host) code))).
Proof.
  intros W host.
  assert (Hnode :
    propagates (Full.NodeRuntime_args host) (process_argv (process host))
    /\ (forall s, propagates (Full.NodeRuntime_stdout host s)
                    (process_stdout_write (process host) s))
    /\ (forall s, propagates (Full.NodeRuntime_stderr host s)
                    (process_stderr_write (process host) s))
    /\ (forall code, propagates_exit (Full.NodeRuntime_exit host code)
                       (process_exit (process host) code))).
  { split; [ apply propagates_slice | ].
    split; [ intros s; apply propagates_void | ].
    split; [ intros s; apply propagates_void | ].
    intros code. apply propagates_exit_refl. }
  split; [ exact Hnode | split; [ | exact Hnode ] ].
  intros d Hd.
  unfold Full.DenoRuntime_args, Full.DenoRuntime_stdout,
    Full.DenoRuntime_stderr, Full.DenoRuntime_exit.
  split; [ | split; [ | split ] ]; intros;
    rewrite ?(with_Deno host d _ Hd), ?(exit_with_Deno host d _ Hd);
    first [ apply propagates_void | apply propagates_refl
          | apply propagates_exit_refl ].
Qed.

Lemma host_failures_propagate_unmodified_witness :
  Full.DenoRuntime_stdout (machine_host (broken true EPIPE)) (lit "hi") boot
  = (Throw EPIPE, record (Call_Deno_writeSync Stdout [104; 105]%N) boot).
Proof.
  destruct (host_failures_propagate_unmodified _
              (machine_host (broken true EPIPE))) as (_ & H & _).
  destruct (H (machine_Deno (broken true EPIPE)) eq_refl) as (_ & Hout & _).
  apply Hout. reflexivity.
Defined.

(** ** Arguments *)

(** C4: whatever the argument vector, [args] returns the user's arguments
    in order. Where [process.argv] is the executable, the script and then
    the user's arguments, [NodeRuntime.args] returns exactly the user's
    arguments; where [Deno.args] is the user's arguments,
    [DenoRuntime.args] returns exactly them; and for a vector of any
    length the result is a list, [slice(2)] of it, never an absent value. *)
Theorem args_returns_user_arguments :
  forall W (host : Host W) (w w' : W) (exe scr : JsString)
         (user : list JsString),
    (process_argv (process host) w = (Normal (exe :: scr :: user), w') ->
       Full.NodeRuntime_args host w = (Normal user, w')
       /\ Restricted.NodeRuntime_args host w = (Normal user, w'))
    /\ (forall d, globalThis_Deno host = Some d ->
          Deno_args d w = (Normal user, w') ->
          Full.DenoRuntime_args host w = (Normal user, w')
          /\ Restricted.DenoRuntime_args host w = (Normal user, w'))
    /\ (forall argv, process_argv (process host) w = (Normal argv, w') ->
          Full.NodeRuntime_args host w = (Normal (skipn 2 argv), w')
          /\ Restricted.NodeRuntime_args host w = (Normal (skipn 2 argv), w')).
Proof.
  intros W host w w' exe scr user. split; [ | split ].
  - intros H. unfold Full.NodeRuntime_args, Restricted.NodeRuntime_args, bind.
    now rewrite H.
  - intros d Hd H.
    unfold Full.DenoRuntime_args, Restricted.DenoRuntime_args.
    now rewrite (with_Deno host d _ Hd).
  - intros argv H.
    unfold Full.NodeRuntime_args, Restricted.NodeRuntime_args, bind.
    now rewrite H.
Qed.

Lemma args_returns_user_arguments_witness :
  Full.NodeRuntime_args (machine_host (linux false)) boot
  = (Normal [lit "--port"; lit "8080"], record Get_process_argv boot)
  /\ Full.NodeRuntime_args (machine_host (windows false)) boot
     = (Normal [], record Get_process_argv boot)
  /\ Full.DenoRuntime_args (machine_host (windows true)) boot
     = (Normal [], record Get_Deno_args boot).
Proof.
  split; [ | split ].
  - apply (proj1 (args_returns_user_arguments _ (machine_host (linux false))
             boot (record Get_process_argv boot)
             (lit "/usr/bin/node") (lit "/app/main.ts")
             [lit "--port"; lit "8080"])).
    reflexivity.
  - apply (proj1 (args_returns_user_arguments _ (machine_host (windows false))
             boot (record Get_process_argv boot)
             (lit "/usr/bin/node") (lit "/app/main.ts") [])).
    reflexivity.
  - apply (proj1 (proj2 (args_returns_user_arguments _
             (machine_host (windows true))
             boot (record Get_Deno_args boot) [] [] []))
             (machine_Deno (windows true))); reflexivity.
Defined.

(** C8: on hosts launched with the same user arguments, [NodeRuntime.args],
    which drops the first two entries of [process.argv], and
    [DenoRuntime.args], which returns [Deno.args] as it is, give the same
    list: the arguments the user supplied, which is what the spec asks. *)
Theorem args_agree_across_families :
  forall (node deno : Machine) (w v : World),
    has_Deno deno = true ->
    spec_args node = spec_args deno ->
    fst (Full.NodeRuntime_args (machine_host node) w)
    = fst (Full.DenoRuntime_args (machine_host deno) v)
    /\ fst (Full.NodeRuntime_args (machine_host node) w)
       = Normal (slice 2 (executable node :: script node :: user_args node))
    /\ fst (Full.NodeRuntime_args (machine_host node) w)
       = Normal (spec_args node)
    /\ fst (Full.DenoRuntime_args (machine_host deno) v)
       = Normal (spec_args deno)
    /\ fst (Restricted.NodeRuntime_args (machine_host node) w)
       = fst (Restricted.DenoRuntime_args (machine_host deno) v).
Proof.
  intros node deno w v Hd Hargs.
  unfold Full.DenoRuntime_args, Restricted.DenoRuntime_args.
  rewrite !(with_Deno _ _ _ (machine_Deno_present deno Hd)).
  unfold spec_args in *. cbn. rewrite Hargs. repeat split.
Qed.

Lemma args_agree_across_families_witness :
  fst (Full.NodeRuntime_args (machine_host (linux false)) boot)
  = fst (Full.DenoRuntime_args (machine_host (linux true)) boot).
Proof.
  apply (args_agree_across_families (linux false) (linux true) boot boot);
    reflexivity.
Defined.

(** ** Writes *)

Lemma Node_write_once (m : Machine) (fd : Stream) (s : JsString) (w : World) :
  writes_once
    (fun s => void (native m (Call_process_write fd s) true (fun w => w)))
    fd s w.
Proof.
  exists (Call_process_write fd s). unfold void, bind, native, ret.
  now destruct (raises m (Call_process_write fd s) w).
Qed.

Lemma Deno_write_once (m : Machine) (fd : Stream) (s : JsString) (w : World) :
  isWellFormed s = true ->
  writes_once
    (fun s =>
       void (native m (Call_Deno_writeSync fd (TextEncoder_encode s))
               (N.of_nat (List.length (TextEncoder_encode s))) (fun w => w)))
    fd s w.
Proof.
  intros Hwf. exists (Call_Deno_writeSync fd (TextEncoder_encode s)).
  unfold void, bind, native, ret.
  destruct (raises m _ w); cbn; auto using decode_encode.
Qed.

Lemma Node_write_requested (m : Machine) (fd : Stream) (s : JsString)
    (w : World) :
  trace (snd (void (native m (Call_process_write fd s) true (fun w => w)) w))
  = trace w ++ [Call_process_write fd s].
Proof.
  unfold void, bind, native, ret.
  now destruct (raises m (Call_process_write fd s) w).
Qed.

Lemma Deno_write_requested (m : Machine) (fd : Stream) (bytes : list N)
    (w : World) :
  trace (snd (void (native m (Call_Deno_writeSync fd bytes)
                      (N.of_nat (List.length bytes)) (fun w => w)) w))
  = trace w ++ [Call_Deno_writeSync fd bytes].
Proof.
  unfold void, bind, native, ret.
  now destruct (raises m (Call_Deno_writeSync fd bytes) w).
Qed.

(** C3, as amended: for every string [s], the empty one and the
    ill-formed ones included, [stdout(s)] hands the host exactly one write
    request, on standard output, and [stderr(s)] exactly one on standard
    error, whether or not the host then carries it out: on Node the chunk
    is [s] itself, on Deno the bytes are the UTF-8 encoding of [s]. Those
    bytes read back as [s], nothing added or removed, for every well-formed
    [s] (no unpaired surrogate), characters outside ASCII included, and
    for no other string. *)
Theorem stdout_stderr_write_once :
  forall (m : Machine) (s : JsString) (w : World),
    (writes_once (Full.NodeRuntime_stdout (machine_host m)) Stdout s w
     /\ writes_once (Full.NodeRuntime_stderr (machine_host m)) Stderr s w
     /\ writes_once (Restricted.NodeRuntime_stdout (machine_host m)) Stdout s w
     /\ writes_once (Restricted.NodeRuntime_stderr (machine_host m)) Stderr s w)
    /\ (has_Deno m = true -> isWellFormed s = true ->
        writes_once (Full.DenoRuntime_stdout (machine_host m)) Stdout s w
        /\ writes_once (Full.DenoRuntime_stderr (machine_host m)) Stderr s w
        /\ writes_once (Restricted.DenoRuntime_stdout (machine_host m)) Stdout s w
        /\ writes_once (Restricted.DenoRuntime_stderr (machine_host m)) Stderr s w)
    /\ (trace (snd (Full.NodeRuntime_stdout (machine_host m) s w))
        = trace w ++ [Call_process_write Stdout s]
        /\ trace (snd (Full.NodeRuntime_stderr (machine_host m) s w))
           = trace w ++ [Call_process_write Stderr s]
        /\ trace (snd (Restricted.NodeRuntime_stdout (machine_host m) s w))
           = trace w ++ [Call_process_write Stdout s]
        /\ trace (snd (Restricted.NodeRuntime_stderr (machine_host m) s w))
           = trace w ++ [Call_process_write Stderr s])
    /\ (has_Deno m = true ->
        trace (snd (Full.DenoRuntime_stdout (machine_host m) s w))
        = trace w ++ [Call_Deno_writeSync Stdout (TextEncoder_encode s)]
        /\ trace (snd (Full.DenoRuntime_stderr (machine_host m) s w))
           = trace w ++ [Call_Deno_writeSync Stderr (TextEncoder_encode s)]
        /\ trace (snd (Restricted.DenoRuntime_stdout (machine_host m) s w))
           = trace w ++ [Call_Deno_writeSync Stdout (TextEncoder_encode s)]
        /\ trace (snd (Restricted.DenoRuntime_stderr (machine_host m) s w))
           = trace w ++ [Call_Deno_writeSync Stderr (TextEncoder_encode s)])
    /\ (forallb code_unit s = true ->
        (TextDecoder_decode (TextEncoder_encode s) = Some s
         <-> isWellFormed s = true)).
Proof.
  intros m s w.
  split; [ | split; [ | split; [ | split ] ] ].
  - repeat split; apply Node_write_once.
  - intros Hd Hwf.
    pose proof (Deno_write_once m Stdout s w Hwf) as Hout.
    pose proof (Deno_write_once m Stderr s w Hwf) as Herr.
    unfold writes_once in *.
    unfold Full.DenoRuntime_stdout, Full.DenoRuntime_stderr,
      Restricted.DenoRuntime_stdout, Restricted.DenoRuntime_stderr.
    rewrite !(with_Deno _ _ _ (machine_Deno_present m Hd)).
    repeat split; assumption.
  - repeat split; apply Node_write_requested.
  - intros Hd.
    unfold Full.DenoRuntime_stdout, Full.DenoRuntime_stderr,
      Restricted.DenoRuntime_stdout, Restricted.DenoRuntime_stderr.
    rewrite !(with_Deno _ _ _ (machine_Deno_present m Hd)).
    repeat split; apply Deno_write_requested.
  - intros Hs. split; [ | apply decode_encode ].
    intros Hback. destruct (decode_encode_well_formed s Hs) as [t [Ht Hwf]].
    rewrite Ht in Hback. now injection Hback as <-.
Qed.

Lemma stdout_stderr_write_once_witness :
  writes_once (Full.DenoRuntime_stdout (machine_host (linux true))) Stdout
    [0x48; 0x4E16; 0xD83C; 0xDF0D; 0x0A]%N boot
  /\ writes_once (Full.DenoRuntime_stdout (machine_host (linux true))) Stdout
       [] boot
  /\ trace (snd (Full.DenoRuntime_stdout (machine_host (linux true))
                   [0xD800%N] boot))
     = trace boot ++ [Call_Deno_writeSync Stdout (TextEncoder_encode [0xD800%N])]
  /\ (TextDecoder_decode (TextEncoder_encode [0xD800%N]) = Some [0xD800%N]
      <-> isWellFormed [0xD800%N] = true).
Proof.
  split; [ | split; [ | split ] ].
  - apply (proj1 (proj2 (stdout_stderr_write_once (linux true)
             [0x48; 0x4E16; 0xD83C; 0xDF0D; 0x0A]%N boot)));
      reflexivity.
  - apply (proj1 (proj2 (stdout_stderr_write_once (linux true) [] boot)));
      reflexivity.
  - destruct (stdout_stderr_write_once (linux true) [0xD800%N] boot)
      as (_ & _ & _ & H & _).
    now apply H.
  - destruct (stdout_stderr_write_once (linux true) [0xD800%N] boot)
      as (_ & _ & _ & _ & H).
    now apply H.
Defined.

(** C3 as stated fails on Deno for a string with an unpaired surrogate:
    the one write carries U+FFFD in its place. *)
Lemma stdout_lone_surrogate_is_replaced :
  forallb code_unit [0xD800%N] = true
  /\ trace (snd (Full.DenoRuntime_stdout (machine_host (linux true))
                   [0xD800%N] boot))
     = [Call_Deno_writeSync Stdout [0xEF; 0xBF; 0xBD]%N]
  /\ written_text (Call_Deno_writeSync Stdout [0xEF; 0xBF; 0xBD]%N)
     = Some [0xFFFD%N]
  /\ ~ writes_once (Full.DenoRuntime_stdout (machine_host (linux true)))
         Stdout [0xD800%N] boot.
Proof.
  split; [ reflexivity | ]. split; [ reflexivity | ].
  split; [ reflexivity | ].
  intros [c [Htrace [_ Htext]]]. cbn in Htrace.
  injection Htrace as <-. discriminate Htext.
Qed.

(** On Deno nothing but a well-formed string is written as itself. *)
Lemma Deno_write_reads_back_only_well_formed
    (m : Machine) (fd : Stream) (s : JsString) (w : World) :
  has_Deno m = true -> forallb code_unit s = true ->
  writes_once
    (match fd with
     | Stdout => Full.DenoRuntime_stdout (machine_host m)
     | Stderr => Full.DenoRuntime_stderr (machine_host m)
     end) fd s w ->
  isWellFormed s = true.
Proof.
  intros Hd Hs [c [Htrace [_ Htext]]].
  destruct (decode_encode_well_formed s Hs) as [t [Hdec Hwf]].
  assert (Hc : c = Call_Deno_writeSync fd (TextEncoder_encode s)).
  { destruct fd;
      unfold Full.DenoRuntime_stdout, Full.DenoRuntime_stderr in Htrace;
      rewrite (with_Deno _ _ _ (machine_Deno_present m Hd)) in Htrace;
      unfold void, bind, ret in Htrace; cbn in Htrace;
      unfold native in Htrace;
      destruct (raises m (Call_Deno_writeSync _ (TextEncoder_encode s)) w);
      cbn in Htrace;
      apply app_inj_tail in Htrace as [_ Htrace]; now symmetry. }
  subst c. cbn in Htext. rewrite Hdec in Htext. now injection Htext as <-.
Qed.

(** ** Every handle on the recording host *)

Ltac each_handle H :=
  let Hin := fresh "Hin" in
  let Hd := fresh "Hd" in
  destruct H as [Hin Hd]; cbn [handles In] in Hin;
  destruct Hin as [<- | [<- | [<- | [<- | []]]]];
  cbn [constructor Full.NodeRuntime Full.DenoRuntime
         Restricted.NodeRuntime Restricted.DenoRuntime] in *;
  try (specialize (Hd eq_refl)).

Ltac machine_step :=
  cbn [machine_host machine_Deno machine_process globalThis_Deno process
         Deno_args Deno_addSignalListener Deno_stdout_writeSync
         Deno_stderr_writeSync Deno_exit process_argv process_on
         process_stdout_write process_stderr_write process_exit
         exit_request write_request signal_request args_request fst snd].

Ltac run_machine :=
  cbn [args stdout stderr exit signal write
         Full.NodeRuntime Full.DenoRuntime
         Restricted.NodeRuntime Restricted.DenoRuntime];
  unfold Full.DenoRuntime_args, Full.DenoRuntime_stdout,
    Full.DenoRuntime_stderr, Full.DenoRuntime_exit, Full.DenoRuntime_signal,
    Restricted.DenoRuntime_args, Restricted.DenoRuntime_stdout,
    Restricted.DenoRuntime_stderr, Restricted.DenoRuntime_exit,
    Restricted.DenoRuntime_signal,
    Full.NodeRuntime_args, Full.NodeRuntime_stdout,
    Full.NodeRuntime_stderr, Full.NodeRuntime_exit, Full.NodeRuntime_signal,
    Restricted.NodeRuntime_args, Restricted.NodeRuntime_stdout,
    Restricted.NodeRuntime_stderr, Restricted.NodeRuntime_exit,
    Restricted.NodeRuntime_signal,
    void, try_catch, bind, bind_exit, Deno;
  machine_step;
  repeat match goal with
    | Hd : has_Deno _ = _ |- _ => rewrite Hd
    end;
  repeat (progress (unfold ret, throw, native, native_exit, property;
                    machine_step)).

(** X1: [exit(code)] of either class, in either build, asks the host for
    exactly one termination, with the code it was given, and does not
    return: where the host carries it out the process has ended with that
    code, where the host raises the error reaches the caller and the
    process goes on; the registry is not touched. *)
Theorem exit_forwards_the_code :
  forall (m : Machine) (r : Runtime World) (code : Z) (w : World),
    runs_on r m ->
    trace (snd (exit r code w)) = trace w ++ [exit_request (constructor r) code]
    /\ listeners (snd (exit r code w)) = listeners w
    /\ (raises m (exit_request (constructor r) code) w = None ->
          fst (exit r code w) = Ends code
          /\ exit_status (snd (exit r code w)) = Some code)
    /\ (forall e, raises m (exit_request (constructor r) code) w = Some e ->
          fst (exit r code w) = Raises e
          /\ exit_status (snd (exit r code w)) = exit_status w).
Proof.
  intros m r code w H. each_handle H; run_machine;
    destruct (raises m _ w) eqn:Hr; cbn;
    (split; [ reflexivity | split; [ reflexivity | split ] ]);
    first [ discriminate | intros e0 He; now inversion He | now intros _ ].
Qed.

Lemma exit_forwards_the_code_witness :
  fst (exit (Full.DenoRuntime (machine_host (linux true))) 130 boot) = Ends 130
  /\ exit_status
       (snd (exit (Full.DenoRuntime (machine_host (linux true))) 130 boot))
     = Some 130%Z.
Proof.
  destruct (exit_forwards_the_code (linux true)
              (Full.DenoRuntime (machine_host (linux true))) 130 boot)
    as (_ & _ & H & _).
  - split; [ cbn; tauto | reflexivity ].
  - now apply H.
Defined.

(** X2: on every machine, [getRuntime] followed by [args] on the handle
    it returned gives the user's arguments, by one read of [Deno.args]
    where Deno is present and of [process.argv] where it is not. *)
Theorem getRuntime_then_args :
  forall (m : Machine) (w : World),
    bind (Full.getRuntime (machine_host m)) (fun r => args r) w
    = (Normal (user_args m),
       record (if has_Deno m then Get_Deno_args else Get_process_argv) w)
    /\ bind (Restricted.getRuntime (machine_host m)) (fun r => args r) w
       = (Normal (user_args m),
          record (if has_Deno m then Get_Deno_args else Get_process_argv) w).
Proof.
  intros m w.
  unfold Full.getRuntime, Restricted.getRuntime, bind, ret, Deno,
    Full.denoruntime_runtime, Full.noderuntime_runtime,
    Restricted.denoruntime_runtime, Restricted.noderuntime_runtime.
  cbn. destruct (has_Deno m) eqn:Hd; cbn;
    unfold Full.DenoRuntime_args, Restricted.DenoRuntime_args, bind, Deno;
    cbn; rewrite ?Hd; cbn; now split.
Qed.

(** X3: the handle [getRuntime] returns never fails of its own: a write,
    an exit or a registration on it throws [e] only where the host raised
    [e] on that very request, and [args] on it never throws. *)
Theorem getRuntime_handle_fails_only_as_the_host_does :
  forall (m : Machine) (w : World) (r : Runtime World),
    fst (Full.getRuntime (machine_host m) w) = Normal r
    \/ fst (Restricted.getRuntime (machine_host m) w) = Normal r ->
    forall (v : World) (e : JsError),
      (forall fd s, fst (write r fd s v) = Throw e ->
         raises m (write_request (constructor r) fd s) v = Some e)
      /\ (forall code, fst (exit r code v) = Raises e ->
            raises m (exit_request (constructor r) code) v = Some e)
      /\ (forall name cb, fst (signal r name cb v) = Throw e ->
            raises m (signal_request (constructor r) (name, cb)) v = Some e)
      /\ fst (args r v) <> Throw e.
Proof.
  intros m w r Hr v e.
  assert (H : runs_on r m).
  { unfold Full.getRuntime, Restricted.getRuntime in Hr. unfold runs_on.
    destruct (has_Deno m) eqn:Hd.
    - rewrite (machine_Deno_present m Hd) in Hr. cbn in Hr.
      destruct Hr as [Hr | Hr]; inversion Hr; subst r; cbn; tauto.
    - cbn in Hr. rewrite Hd in Hr. cbn in Hr.
      destruct Hr as [Hr | Hr]; inversion Hr; subst r; cbn;
        (split; [ tauto | discriminate ]). }
  clear Hr. each_handle H;
    (split; [ intros [] s | split; [ intros code | split; [ intros name cb | ] ] ]);
    run_machine;
    try (destruct (raises m _ v); cbn; congruence);
    try discriminate.
Qed.

Lemma getRuntime_handle_fails_only_as_the_host_does_witness :
  raises (broken true EPIPE) (Call_Deno_writeSync Stdout [120%N]) boot
  = Some EPIPE.
Proof.
  destruct (getRuntime_handle_fails_only_as_the_host_does (broken true EPIPE)
              boot (Full.DenoRuntime (machine_host (broken true EPIPE)))
              (or_introl eq_refl) boot EPIPE) as (H & _).
  apply (H Stdout (lit "x")). reflexivity.
Defined.


(** X4: a [DenoRuntime] of either build used where there is no [Deno]
    global throws a [ReferenceError] from [args], [stdout], [stderr] and
    [exit], and from [signal] in the restricted build, without touching
    the world; in the full build [signal] swallows it too and returns
    normally, having registered nothing. *)
Theorem DenoRuntime_without_the_Deno_global :
  forall W (host : Host W) (w : W),
    globalThis_Deno host = None ->
    (Full.DenoRuntime_args host w = (Throw (ReferenceError "Deno"), w)
     /\ (forall s, Full.DenoRuntime_stdout host s w
                   = (Throw (ReferenceError "Deno"), w))
     /\ (forall s, Full.DenoRuntime_stderr host s w
                   = (Throw (ReferenceError "Deno"), w))
     /\ (forall code, Full.DenoRuntime_exit host code w
                      = (Raises (ReferenceError "Deno"), w))
     /\ (forall name cb, Full.DenoRuntime_signal host name cb w
                         = (Normal tt, w)))
    /\ (Restricted.DenoRuntime_args host w = (Throw (ReferenceError "Deno"), w)
        /\ (forall s, Restricted.DenoRuntime_stdout host s w
                      = (Throw (ReferenceError "Deno"), w))
        /\ (forall s, Restricted.DenoRuntime_stderr host s w
                      = (Throw (ReferenceError "Deno"), w))
        /\ (forall code, Restricted.DenoRuntime_exit host code w
                         = (Raises (ReferenceError "Deno"), w))
        /\ (forall name cb, Restricted.DenoRuntime_signal host name cb w
                            = (Throw (ReferenceError "Deno"), w))).
Proof.
  intros W host w H.
  unfold Full.DenoRuntime_args, Full.DenoRuntime_stdout,
    Full.DenoRuntime_stderr, Full.DenoRuntime_exit, Full.DenoRuntime_signal,
    Restricted.DenoRuntime_args, Restricted.DenoRuntime_stdout,
    Restricted.DenoRuntime_stderr, Restricted.DenoRuntime_exit,
    Restricted.DenoRuntime_signal, try_catch.
  repeat split; intros;
    now rewrite ?without_Deno, ?exit_without_Deno by exact H.
Qed.

Lemma DenoRuntime_without_the_Deno_global_witness :
  Full.DenoRuntime_signal (machine_host (linux false)) (lit "SIGINT") 1 boot
  = (Normal tt, boot).
Proof.
  destruct (DenoRuntime_without_the_Deno_global World
              (machine_host (linux false)) boot eq_refl)
    as ((_ & _ & _ & _ & H) & _).
  apply H.
Defined.

(** X5: on every handle, [args], [stdout], [stderr] and [exit] leave the
    registry as it is; [args], [stdout], [stderr] and [signal] leave the
    exit status as it is; [signal] adds at most its own registration, at
    the end, and removes none. *)
Theorem operations_leave_the_rest_alone :
  forall (m : Machine) (r : Runtime World),
    In r (handles m) ->
    keeps_registry (args r)
    /\ (forall fd s, keeps_registry (write r fd s))
    /\ (forall code, keeps_registry (exit r code))
    /\ keeps_exit_status (args r)
    /\ (forall fd s, keeps_exit_status (write r fd s))
    /\ (forall name cb, keeps_exit_status (signal r name cb))
    /\ (forall name cb w,
          listeners (snd (signal r name cb w)) = listeners w
          \/ listeners (snd (signal r name cb w)) = listeners w ++ [(name, cb)]).
Proof.
  intros m r H. assert (Hr : runs_on r m \/ has_Deno m = false).
  { destruct (has_Deno m) eqn:Hd; [ left | now right ]. now split. }
  unfold keeps_registry, keeps_exit_status.
  destruct Hr as [Hr | Hd].
  - clear H. each_handle Hr;
      (split; [ intros w | split; [ intros [] s w | split; [ intros code w |
       split; [ intros w | split; [ intros [] s w | split;
         [ intros name cb w | intros name cb w ] ] ] ] ] ]);
      run_machine; try reflexivity;
      destruct (raises m _ w); cbn; auto.
  - cbn [handles In] in H.
    destruct H as [<- | [<- | [<- | [<- | []]]]];
      (split; [ intros w | split; [ intros [] s w | split; [ intros code w |
       split; [ intros w | split; [ intros [] s w | split;
         [ intros name cb w | intros name cb w ] ] ] ] ] ]);
      run_machine; try reflexivity;
      try (destruct (raises m _ w); cbn; auto); auto.
Qed.

Lemma operations_leave_the_rest_alone_witness :
  keeps_registry (exit (Full.NodeRuntime (machine_host (linux false))) 0).
Proof.
  destruct (operations_leave_the_rest_alone (linux false)
              (Full.NodeRuntime (machine_host (linux false))))
    as (_ & _ & H & _).
  - cbn. tauto.
  - apply H.
Defined.

(** X6: on a handle the machine can serve, [args], [stdout], [stderr]
    and [signal] each make exactly one request of the host, with the
    arguments they were given, whether the host then carries it out or
    raises: nothing is retried. *)
Theorem every_operation_is_one_request :
  forall (m : Machine) (r : Runtime World) (w : World),
    runs_on r m ->
    trace (snd (args r w)) = trace w ++ [args_request (constructor r)]
    /\ (forall fd s,
          trace (snd (write r fd s w))
          = trace w ++ [write_request (constructor r) fd s])
    /\ (forall name cb,
          trace (snd (signal r name cb w))
          = trace w ++ [signal_request (constructor r) (name, cb)]).
Proof.
  intros m r w H. each_handle H;
    (split; [ | split; [ intros [] s | intros name cb ] ]);
    run_machine; try reflexivity; now destruct (raises m _ w).
Qed.

Lemma every_operation_is_one_request_witness :
  trace (snd (signal (Full.DenoRuntime (machine_host (linux true)))
                (lit "SIGINFO") 4 boot))
  = [Call_Deno_addSignalListener (lit "SIGINFO") 4].
Proof.
  destruct (every_operation_is_one_request (linux true)
              (Full.DenoRuntime (machine_host (linux true))) boot)
    as (_ & _ & H).
  - split; [ cbn; tauto | reflexivity ].
  - apply H.
Defined.

(** X7: the two builds differ in nothing but the completion of a failed
    [signal]. [args], [stdout], [stderr] and [exit] are the same functions;
    [signal] leaves the same world in both; where the bare call returns
    normally the guarded one returns the same, and where it throws the
    guarded one returns normally. *)
Theorem builds_differ_only_in_the_guard :
  forall W (host : Host W),
    (Full.NodeRuntime_args host = Restricted.NodeRuntime_args host
     /\ Full.NodeRuntime_stdout host = Restricted.NodeRuntime_stdout host
     /\ Full.NodeRuntime_stderr host = Restricted.NodeRuntime_stderr host
     /\ Full.NodeRuntime_exit host = Restricted.NodeRuntime_exit host
     /\ Full.DenoRuntime_args host = Restricted.DenoRuntime_args host
     /\ Full.DenoRuntime_stdout host = Restricted.DenoRuntime_stdout host
     /\ Full.DenoRuntime_stderr host = Restricted.DenoRuntime_stderr host
     /\ Full.DenoRuntime_exit host = Restricted.DenoRuntime_exit host)
    /\ forall name cb w,
         snd (Full.NodeRuntime_signal host name cb w)
         = snd (Restricted.NodeRuntime_signal host name cb w)
         /\ snd (Full.DenoRuntime_signal host name cb w)
            = snd (Restricted.DenoRuntime_signal host name cb w)
         /\ (is_normal (fst (Restricted.NodeRuntime_signal host name cb w)) = true ->
             Full.NodeRuntime_signal host name cb w
             = Restricted.NodeRuntime_signal host name cb w)
         /\ (is_normal (fst (Restricted.DenoRuntime_signal host name cb w)) = true ->
             Full.DenoRuntime_signal host name cb w
             = Restricted.DenoRuntime_signal host name cb w)
         /\ (is_normal (fst (Restricted.NodeRuntime_signal host name cb w)) = false ->
             fst (Full.NodeRuntime_signal host name cb w) = Normal tt)
         /\ (is_normal (fst (Restricted.DenoRuntime_signal host name cb w)) = false ->
             fst (Full.DenoRuntime_signal host name cb w) = Normal tt).
Proof.
  intros W host. split; [ repeat split | ].
  intros name cb w.
  unfold Full.NodeRuntime_signal, Full.DenoRuntime_signal, try_catch, ret.
  fold (Restricted.NodeRuntime_signal host name cb).
  fold (Restricted.DenoRuntime_signal host name cb).
  destruct (Restricted.NodeRuntime_signal host name cb w) as [[[] | e1] w1];
    destruct (Restricted.DenoRuntime_signal host name cb w) as [[[] | e2] w2];
    cbn; repeat split; intros; try reflexivity; discriminate.
Qed.

Lemma builds_differ_only_in_the_guard_witness :
  Full.DenoRuntime_signal (machine_host (linux true)) (lit "SIGTERM") 1 boot
  = Restricted.DenoRuntime_signal (machine_host (linux true)) (lit "SIGTERM") 1
      boot.
Proof.
  destruct (builds_differ_only_in_the_guard World (machine_host (linux true)))
    as [_ H].
  destruct (H (lit "SIGTERM") 1%nat boot) as (_ & _ & _ & Hd & _).
  apply Hd. reflexivity.
Defined.


Lemma for_of_never_throws {W A} (xs : list A) (body : A -> M W unit) :
  (forall x w, fst (body x w) = Normal tt) ->
  forall w, fst (for_of xs body w) = Normal tt.
Proof.
  intros Hbody. induction xs as [ | x xs IH ]; intros w; [ reflexivity | ].
  cbn [for_of]. unfold bind. specialize (Hbody x w).
  destruct (body x w) as [[[] | e] w']; cbn in Hbody;
    [ apply IH | discriminate ].
Qed.

(** X8: in the full build a run of registrations always runs to its
    end: whatever the host does, the loop over them returns normally. *)
Theorem guarded_registrations_never_stop :
  forall W (host : Host W) (regs : list (JsString * Callback)) (w : W),
    fst (register_each (Full.NodeRuntime host) regs w) = Normal tt
    /\ fst (register_each (Full.DenoRuntime host) regs w) = Normal tt.
Proof.
  intros W host regs w. unfold register_each.
  split; apply for_of_never_throws; intros [name cb] v;
    apply try_catch_discard.
Qed.

(** ** Runs of registrations on the recording host *)

Lemma after_no_registration cls w : after_registrations cls [] [] w = w.
Proof.
  destruct w. unfold after_registrations. cbn. now rewrite !app_nil_r.
Qed.

Lemma after_registrations_twice cls req1 kept1 req2 kept2 w :
  after_registrations cls req2 kept2 (after_registrations cls req1 kept1 w)
  = after_registrations cls (req1 ++ req2) (kept1 ++ kept2) w.
Proof.
  unfold after_registrations. cbn. now rewrite map_app, <- !app_assoc.
Qed.

Lemma guarded_signal_on_machine m f r name cb w :
  signal_support m (constructor r) f ->
  r = Full.NodeRuntime (machine_host m)
  \/ (r = Full.DenoRuntime (machine_host m) /\ has_Deno m = true) ->
  signal r name cb w
  = (Normal tt,
     after_registrations (constructor r) [(name, cb)]
       (filter (supported f) [(name, cb)]) w).
Proof.
  intros Hf [-> | [-> Hd]]; run_machine;
    pose proof (Hf name cb w) as H1; cbn in H1; rewrite H1;
    unfold after_registrations, supported; cbn;
    destruct (f name); cbn; now rewrite ?app_nil_r.
Qed.

Lemma bare_signal_on_machine m f r name cb w :
  signal_support m (constructor r) f ->
  r = Restricted.NodeRuntime (machine_host m)
  \/ (r = Restricted.DenoRuntime (machine_host m) /\ has_Deno m = true) ->
  signal r name cb w
  = (match f name with Some e => Throw e | None => Normal tt end,
     after_registrations (constructor r) [(name, cb)]
       (filter (supported f) [(name, cb)]) w).
Proof.
  intros Hf [-> | [-> Hd]]; run_machine;
    pose proof (Hf name cb w) as H1; cbn in H1; rewrite H1;
    unfold after_registrations, supported; cbn;
    destruct (f name); cbn; now rewrite ?app_nil_r.
Qed.

(** X9: in the full build, on a host where support depends on the name
    alone, a run of registrations requests every one of them in order and
    the registry gains exactly the supported ones, in order. *)
Theorem guarded_registrations_keep_the_supported :
  forall (m : Machine) (f : JsString -> option JsError) (r : Runtime World)
         (regs : list (JsString * Callback)) (w : World),
    signal_support m (constructor r) f ->
    r = Full.NodeRuntime (machine_host m)
    \/ (r = Full.DenoRuntime (machine_host m) /\ has_Deno m = true) ->
    register_each r regs w
    = (Normal tt,
       {| trace := trace w ++ map (signal_request (constructor r)) regs;
          listeners := listeners w ++ filter (supported f) regs;
          exit_status := exit_status w |}).
Proof.
  intros m f r regs w Hf Hr. unfold register_each.
  change (for_of regs (fun reg => signal r (fst reg) (snd reg)) w
          = (Normal tt,
             after_registrations (constructor r) regs
               (filter (supported f) regs) w)).
  revert w. induction regs as [ | [name cb] regs IH ]; intros w.
  - cbn [for_of filter]. now rewrite after_no_registration.
  - cbn [for_of fst snd]. unfold bind.
    rewrite (guarded_signal_on_machine m f r name cb w Hf Hr).
    rewrite IH. f_equal.
    rewrite after_registrations_twice. now rewrite <- filter_app.
Qed.

Lemma windows_Deno_signal_support :
  signal_support (windows true) DenoRuntimeClass
    (fun name =>
       if inhabits name (map lit ["SIGHUP"; "SIGUSR1"; "SIGUSR2"; "SIGINFO"]%string)
       then Some (TypeError "Invalid signal") else None).
Proof. intros name cb w. reflexivity. Qed.

Lemma guarded_registrations_keep_the_supported_witness :
  listeners (snd (register_each (Full.DenoRuntime (machine_host (windows true)))
                    [(lit "SIGINT", 1); (lit "SIGUSR1", 2); (lit "SIGTERM", 3)]
                    boot))
  = [(lit "SIGINT", 1); (lit "SIGTERM", 3)].
Proof.
  rewrite (guarded_registrations_keep_the_supported (windows true) _
             (Full.DenoRuntime (machine_host (windows true)))
             [(lit "SIGINT", 1); (lit "SIGUSR1", 2); (lit "SIGTERM", 3)] boot
             windows_Deno_signal_support (or_intror (conj eq_refl eq_refl))).
  reflexivity.
Defined.

(** X10: in the restricted build a run of registrations on supported
    names registers them all; a refused name stops it there: the error is
    thrown, the registrations before it stay, the ones after it are never
    requested. *)
Theorem bare_registrations_stop_at_the_first_refusal :
  forall (m : Machine) (f : JsString -> option JsError) (r : Runtime World)
         (pre post : list (JsString * Callback)) (w : World),
    signal_support m (constructor r) f ->
    r = Restricted.NodeRuntime (machine_host m)
    \/ (r = Restricted.DenoRuntime (machine_host m) /\ has_Deno m = true) ->
    forallb (supported f) pre = true ->
    register_each r pre w
    = (Normal tt,
       {| trace := trace w ++ map (signal_request (constructor r)) pre;
          listeners := listeners w ++ pre;
          exit_status := exit_status w |})
    /\ forall bad cb e,
         f bad = Some e ->
         register_each r (pre ++ (bad, cb) :: post) w
         = (Throw e,
            {| trace := trace w
                        ++ map (signal_request (constructor r))
                             (pre ++ [(bad, cb)]);
               listeners := listeners w ++ pre;
               exit_status := exit_status w |}).
Proof.
  intros m f r pre post w Hf Hr. unfold register_each.
  change (forallb (supported f) pre = true ->
          for_of pre (fun reg => signal r (fst reg) (snd reg)) w
          = (Normal tt, after_registrations (constructor r) pre pre w)
          /\ forall bad cb e,
               f bad = Some e ->
               for_of (pre ++ (bad, cb) :: post)
                 (fun reg => signal r (fst reg) (snd reg)) w
               = (Throw e,
                  after_registrations (constructor r) (pre ++ [(bad, cb)])
                    pre w)).
  revert w. induction pre as [ | [name c] pre IH ]; intros w Hpre.
  - split; [ cbn [for_of]; now rewrite after_no_registration | ].
    intros bad cb e Hbad. cbn [app for_of fst snd]. unfold bind.
    rewrite (bare_signal_on_machine m f r bad cb w Hf Hr).
    unfold supported. cbn [filter fst]. now rewrite Hbad.
  - cbn [forallb] in Hpre. apply andb_true_iff in Hpre as [Hname Hpre].
    assert (Hok : f name = None).
    { unfold supported in Hname. cbn in Hname. now destruct (f name). }
    assert (Hstep : signal r name c w
                    = (Normal tt,
                       after_registrations (constructor r) [(name, c)]
                         [(name, c)] w)).
    { rewrite (bare_signal_on_machine m f r name c w Hf Hr).
      unfold supported. cbn [filter fst]. now rewrite Hok. }
    destruct (IH (after_registrations (constructor r) [(name, c)]
                    [(name, c)] w) Hpre) as [IHok IHbad].
    split.
    + cbn [for_of fst snd]. unfold bind. rewrite Hstep, IHok.
      now rewrite after_registrations_twice.
    + intros bad cb e Hbad. cbn [app for_of fst snd]. unfold bind.
      rewrite Hstep, (IHbad bad cb e Hbad).
      now rewrite after_registrations_twice.
Qed.

Lemma linux_Deno_signal_support :
  signal_support (linux true) DenoRuntimeClass
    (fun name =>
       if inhabits name [lit "SIGINFO"]
       then Some (TypeError "Invalid signal") else None).
Proof. intros name cb w. reflexivity. Qed.

Lemma bare_registrations_stop_at_the_first_refusal_witness :
  register_each (Restricted.DenoRuntime (machine_host (linux true)))
    [(lit "SIGTERM", 1); (lit "SIGINFO", 2); (lit "SIGTERM", 3)] boot
  = (Throw (TypeError "Invalid signal"),
     {| trace := [Call_Deno_addSignalListener (lit "SIGTERM") 1;
                  Call_Deno_addSignalListener (lit "SIGINFO") 2];
        listeners := [(lit "SIGTERM", 1)];
        exit_status := None |}).
Proof.
  apply (proj2 (bare_registrations_stop_at_the_first_refusal (linux true) _
                  (Restricted.DenoRuntime (machine_host (linux true)))
                  [(lit "SIGTERM", 1)] [(lit "SIGTERM", 3)] boot
                  linux_Deno_signal_support
                  (or_intror (conj eq_refl eq_refl)) eq_refl)
          (lit "SIGINFO") 2 (TypeError "Invalid signal") eq_refl).
Defined.

(** ** Runs of writes *)

Lemma write_on_machine m r fd s w :
  writes_accepted m -> runs_on r m ->
  write r fd s w = (Normal tt, record (write_request (constructor r) fd s) w).
Proof.
  intros Hacc H. destruct (Hacc fd w) as [Hnode Hdeno].
  each_handle H; destruct fd; run_machine;
    now rewrite ?Hnode, ?Hdeno.
Qed.

Lemma written_text_of_request cls fd s :
  (cls = DenoRuntimeClass -> isWellFormed s = true) ->
  written_text (write_request cls fd s) = Some s.
Proof.
  destruct cls; cbn; [ | reflexivity ].
  intros H. now apply decode_encode, H.
Qed.

Lemma stream_texts_request fd cls fd' s tr :
  (cls = DenoRuntimeClass -> isWellFormed s = true) ->
  stream_texts fd (tr ++ [write_request cls fd' s])
  = stream_texts fd tr ++ (if Stream_eqb fd fd' then [Some s] else []).
Proof.
  intros H. unfold stream_texts. rewrite filter_app, map_app. f_equal.
  cbn [filter].
  replace (written_to (write_request cls fd' s)) with (Some fd')
    by now destruct cls.
  destruct (Stream_eqb fd fd'); [ | reflexivity ].
  cbn [map]. now rewrite written_text_of_request.
Qed.

(** X11: where the host accepts writes, a run of writes on the two
    streams returns normally and each stream receives exactly the strings
    meant for it, in the order of the calls, whatever was written to the
    other stream in between (on Deno for well-formed strings). *)
Theorem writes_keep_their_order_per_stream :
  forall (m : Machine) (r : Runtime World) (ops : list (Stream * JsString))
         (w : World),
    writes_accepted m -> runs_on r m ->
    (constructor r = DenoRuntimeClass ->
     forallb (fun op => isWellFormed (snd op)) ops = true) ->
    fst (write_each r ops w) = Normal tt
    /\ forall fd,
         stream_texts fd (trace (snd (write_each r ops w)))
         = stream_texts fd (trace w) ++ map Some (texts_for fd ops).
Proof.
  intros m r ops w Hacc Hr. unfold write_each. revert w.
  induction ops as [ | [fd' s] ops IH ]; intros w Hwf.
  - split; [ reflexivity | ]. intros fd. cbn. now rewrite app_nil_r.
  - cbn [for_of fst snd]. unfold bind.
    rewrite (write_on_machine m r fd' s w Hacc Hr).
    assert (Hs : constructor r = DenoRuntimeClass -> isWellFormed s = true).
    { intros Hc. specialize (Hwf Hc). cbn in Hwf.
      now apply andb_true_iff in Hwf as [? _]. }
    assert (Hrest : constructor r = DenoRuntimeClass ->
                    forallb (fun op => isWellFormed (snd op)) ops = true).
    { intros Hc. specialize (Hwf Hc). cbn in Hwf.
      now apply andb_true_iff in Hwf as [_ ?]. }
    destruct (IH (record (write_request (constructor r) fd' s) w) Hrest)
      as [IHn IHt].
    split; [ exact IHn | ]. intros fd. rewrite IHt.
    cbn [record trace]. rewrite (stream_texts_request fd _ fd' s _ Hs).
    rewrite <- app_assoc. f_equal. unfold texts_for. cbn [filter fst].
    now destruct (Stream_eqb fd fd').
Qed.

Lemma linux_writes_accepted deno : writes_accepted (linux deno).
Proof. intros fd w. split; intros; reflexivity. Qed.

Lemma writes_keep_their_order_per_stream_witness :
  stream_texts Stdout
    (trace (snd (write_each (Full.DenoRuntime (machine_host (linux true)))
                   [(Stdout, lit "a"); (Stderr, lit "e"); (Stdout, lit "b")]
                   boot)))
  = [Some (lit "a"); Some (lit "b")].
Proof.
  destruct (writes_keep_their_order_per_stream (linux true)
              (Full.DenoRuntime (machine_host (linux true)))
              [(Stdout, lit "a"); (Stderr, lit "e"); (Stdout, lit "b")] boot
              (linux_writes_accepted true))
    as [_ H].
  - split; [ cbn; tauto | reflexivity ].
  - reflexivity.
  - apply (H Stdout).
Defined.

Local Open Scope N_scope.

(** ** The bytes of a write *)

Lemma to_scalar_values_app s t :
  isWellFormed s = true ->
  to_scalar_values (s ++ t) = to_scalar_values s ++ to_scalar_values t.
Proof.
  enough (H : (isWellFormed s = true ->
               to_scalar_values (s ++ t)
               = to_scalar_values s ++ to_scalar_values t)
              /\ forall u, isWellFormed (u :: s) = true ->
                   to_scalar_values ((u :: s) ++ t)
                   = to_scalar_values (u :: s) ++ to_scalar_values t)
    by apply H.
  induction s as [ | v rest [IH1 IH2] ].
  - split; [ reflexivity | ]. intros u Hwf.
    destruct (is_high_surrogate u) eqn:Hh.
    + cbn [isWellFormed] in Hwf. now rewrite Hh in Hwf.
    + rewrite isWellFormed_unit in Hwf by exact Hh.
      apply andb_true_iff in Hwf as [Hl%negb_true_iff _].
      cbn [app]. now rewrite !to_scalar_values_unit.
  - split; [ apply IH2 | ]. intros u Hwf.
    destruct (is_high_surrogate u) eqn:Hh.
    + rewrite isWellFormed_pair in Hwf by exact Hh.
      apply andb_true_iff in Hwf as [Hl Hrest].
      cbn [app]. rewrite !to_scalar_values_pair by assumption.
      cbn [app]. now rewrite IH1.
    + pose proof Hwf as Htail. apply isWellFormed_tail in Htail; [ | exact Hh ].
      rewrite isWellFormed_unit in Hwf by exact Hh.
      apply andb_true_iff in Hwf as [Hl%negb_true_iff _].
      change ((u :: v :: rest) ++ t) with (u :: ((v :: rest) ++ t)).
      rewrite !to_scalar_values_unit by assumption.
      rewrite (IH2 v Htail). reflexivity.
Qed.

Lemma TextEncoder_encode_app s t :
  isWellFormed s = true ->
  TextEncoder_encode (s ++ t) = TextEncoder_encode s ++ TextEncoder_encode t.
Proof.
  intros H. unfold TextEncoder_encode.
  now rewrite to_scalar_values_app, flat_map_app.
Qed.

Lemma utf8_encode_scalar_octets c :
  c < 0x110000 -> Forall (fun b => b < 256) (utf8_encode_scalar c).
Proof.
  intros Hc. unfold utf8_encode_scalar.
  destruct (N.ltb_spec c 0x80); [ | destruct (N.ltb_spec c 0x800);
    [ | destruct (N.ltb_spec c 0x10000) ] ];
    repeat constructor; euclid.
Qed.

Lemma utf8_encode_scalar_length c :
  (1 <= List.length (utf8_encode_scalar c) <= 4)%nat
  /\ (c < 0x10000 -> (List.length (utf8_encode_scalar c) <= 3)%nat)
  /\ (0x10000 <= c -> List.length (utf8_encode_scalar c) = 4%nat).
Proof.
  unfold utf8_encode_scalar.
  destruct (N.ltb_spec c 0x80); [ | destruct (N.ltb_spec c 0x800);
    [ | destruct (N.ltb_spec c 0x10000) ] ]; cbn; repeat split; lia.
Qed.

Lemma TextEncoder_encode_octets s :
  forallb code_unit s = true ->
  Forall (fun b => b < 256) (TextEncoder_encode s).
Proof.
  intros Hs%to_scalar_values_scalar%forallb_scalar_lt.
  unfold TextEncoder_encode. apply Forall_flat_map.
  revert Hs. apply Forall_impl. intros c. apply utf8_encode_scalar_octets.
Qed.

Lemma TextEncoder_encode_ascii s :
  forallb (fun u => u <? 0x80) s = true -> TextEncoder_encode s = s.
Proof.
  induction s as [ | u s IH ]; [ reflexivity | ].
  cbn [forallb]. intros [Hu Hs]%andb_true_iff. pose proof Hu as Hu'.
  apply N.ltb_lt in Hu. unfold TextEncoder_encode in *.
  rewrite to_scalar_values_unit.
  - cbn [flat_map]. rewrite (IH Hs). unfold utf8_encode_scalar.
    now rewrite Hu'.
  - unfold is_high_surrogate. destruct (N.leb_spec 0xD800 u); [ lia | easy ].
  - unfold is_low_surrogate. destruct (N.leb_spec 0xDC00 u); [ lia | easy ].
Qed.

Lemma TextEncoder_encode_length s :
  forallb code_unit s = true ->
  (List.length s <= List.length (TextEncoder_encode s) <= 3 * List.length s)%nat.
Proof.
  enough (H : (forallb code_unit s = true ->
               (List.length s <= List.length (TextEncoder_encode s)
                <= 3 * List.length s)%nat)
              /\ forall u, forallb code_unit (u :: s) = true ->
                   (List.length (u :: s)
                    <= List.length (TextEncoder_encode (u :: s))
                    <= 3 * List.length (u :: s))%nat)
    by apply H.
  assert (Hlone : forall rest,
            TextEncoder_encode (0xFFFD :: rest)
            = [0xEF; 0xBF; 0xBD] ++ TextEncoder_encode rest) by reflexivity.
  assert (Hunit : forall u rest,
            code_unit u = true -> is_high_surrogate u = false ->
            (List.length rest <= List.length (TextEncoder_encode rest)
             <= 3 * List.length rest)%nat ->
            (List.length (u :: rest)
             <= List.length (TextEncoder_encode (u :: rest))
             <= 3 * List.length (u :: rest))%nat).
  { intros u rest Hu Hh Hrest. unfold TextEncoder_encode in *.
    cbn [to_scalar_values]. rewrite Hh.
    destruct (is_low_surrogate u); cbn [flat_map]; rewrite length_app.
    - cbn [List.length] in *. change (List.length (utf8_encode_scalar 0xFFFD)) with 3%nat. lia.
    - apply N.ltb_lt in Hu.
      destruct (utf8_encode_scalar_length u) as ([? ?] & H3 & _).
      specialize (H3 Hu). cbn [List.length] in *. lia. }
  unfold TextEncoder_encode in *.
  induction s as [ | v rest [IH1 IH2] ].
  - split; [ cbn; lia | ]. intros u [Hu _]%andb_true_iff.
    destruct (is_high_surrogate u) eqn:Hh.
    + cbn [to_scalar_values]. rewrite Hh. cbn. lia.
    + apply Hunit; [ assumption .. | cbn; lia ].
  - split; [ apply IH2 | ]. intros u [Hu Hrest]%andb_true_iff.
    destruct (is_high_surrogate u) eqn:Hh.
    + destruct (is_low_surrogate v) eqn:Hl.
      * rewrite to_scalar_values_pair by assumption.
        cbn [forallb] in Hrest. apply andb_true_iff in Hrest as [_ Hrest].
        specialize (IH1 Hrest). cbn [flat_map]. rewrite length_app.
        destruct (utf8_encode_scalar_length
                    (0x10000 + (u - 0xD800) * 0x400 + (v - 0xDC00)))
          as (_ & _ & H4).
        rewrite H4 by lia. cbn [List.length] in *. lia.
      * rewrite to_scalar_values_lone by assumption.
        specialize (IH2 v Hrest). cbn [flat_map]. rewrite length_app.
        change (List.length (utf8_encode_scalar 0xFFFD)) with 3%nat.
        cbn [List.length] in *. lia.
    + apply Hunit; [ assumption .. | now apply IH2 ].
Qed.

Example split_surrogate_pair_is_not_rejoined :
  TextEncoder_encode [0xD83C] ++ TextEncoder_encode [0xDF0D]
  = [0xEF; 0xBF; 0xBD; 0xEF; 0xBF; 0xBD]
  /\ TextEncoder_encode ([0xD83C] ++ [0xDF0D]) = [0xF0; 0x9F; 0x8C; 0x8D].
Proof. split; reflexivity. Qed.

Local Close Scope N_scope.

Lemma write_request_made m r fd s w :
  runs_on r m ->
  trace (snd (write r fd s w)) = trace w ++ [write_request (constructor r) fd s].
Proof.
  intros H. each_handle H; destruct fd; run_machine;
    now destruct (raises m _ w).
Qed.

(** X12: on Deno, writing a well-formed [s] and then [t] hands the host,
    in order, the same bytes as writing [s ++ t] at once. *)
Theorem Deno_writes_concatenate :
  forall (m : Machine) (r : Runtime World) (fd : Stream) (s t : JsString)
         (w : World),
    writes_accepted m -> runs_on r m -> constructor r = DenoRuntimeClass ->
    isWellFormed s = true ->
    flat_map written_bytes (trace (snd (write_each r [(fd, s); (fd, t)] w)))
    = flat_map written_bytes (trace (snd (write r fd (s ++ t) w))).
Proof.
  intros m r fd s t w Hacc Hr Hc Hs.
  unfold write_each. cbn [for_of fst snd]. unfold bind.
  repeat (rewrite (write_on_machine m r _ _ _ Hacc Hr); cbn [ret snd]).
  cbn [snd record trace].
  rewrite Hc. cbn [write_request].
  rewrite !flat_map_app. cbn [flat_map written_bytes].
  rewrite !app_nil_r, <- app_assoc. f_equal.
  now rewrite TextEncoder_encode_app.
Qed.

Lemma Deno_writes_concatenate_witness :
  flat_map written_bytes
    (trace (snd (write_each (Full.DenoRuntime (machine_host (linux true)))
                   [(Stdout, [0x4E16%N]); (Stdout, [0xD83C; 0xDF0D]%N)] boot)))
  = flat_map written_bytes
      (trace (snd (write (Full.DenoRuntime (machine_host (linux true))) Stdout
                     ([0x4E16%N] ++ [0xD83C; 0xDF0D]%N) boot))).
Proof.
  apply (Deno_writes_concatenate (linux true)
           (Full.DenoRuntime (machine_host (linux true))) Stdout
           [0x4E16%N] [0xD83C; 0xDF0D]%N boot (linux_writes_accepted true)).
  - split; [ cbn; tauto | reflexivity ].
  - reflexivity.
  - reflexivity.
Defined.

(** X13: what a Deno write hands to [writeSync] is a sequence of octets,
    at least one and at most three for each code unit of the string, and
    for an ASCII string the code units themselves. *)
Theorem Deno_writes_octets :
  forall (m : Machine) (r : Runtime World) (fd : Stream) (s : JsString)
         (w : World),
    runs_on r m -> constructor r = DenoRuntimeClass ->
    forallb code_unit s = true ->
    exists bytes,
      trace (snd (write r fd s w)) = trace w ++ [Call_Deno_writeSync fd bytes]
      /\ Forall (fun b => (b < 256)%N) bytes
      /\ (List.length s <= List.length bytes <= 3 * List.length s)%nat
      /\ (forallb (fun u => (u <? 0x80)%N) s = true -> bytes = s).
Proof.
  intros m r fd s w Hr Hc Hs. exists (TextEncoder_encode s).
  rewrite (write_request_made m r fd s w Hr), Hc. cbn [write_request].
  split; [ reflexivity | ].
  split; [ now apply TextEncoder_encode_octets | ].
  split; [ now apply TextEncoder_encode_length | ].
  apply TextEncoder_encode_ascii.
Qed.

Lemma Deno_writes_octets_witness :
  exists bytes,
    trace (snd (write (Full.DenoRuntime (machine_host (linux true))) Stderr
                  (lit "ok") boot))
    = trace boot ++ [Call_Deno_writeSync Stderr bytes]
    /\ Forall (fun b => (b < 256)%N) bytes
    /\ (List.length (lit "ok") <= List.length bytes
        <= 3 * List.length (lit "ok"))%nat
    /\ (forallb (fun u => (u <? 0x80)%N) (lit "ok") = true -> bytes = lit "ok").
Proof.
  apply (Deno_writes_octets (linux true)
           (Full.DenoRuntime (machine_host (linux true))) Stderr (lit "ok") boot).
  - split; [ cbn; tauto | reflexivity ].
  - reflexivity.
  - reflexivity.
Defined.

(** X14: [NodeRuntime.args] returns the vector without its first two
    entries, in order, for a vector of any length: one that has at most two
    entries gives the empty list and no error. *)
Theorem NodeRuntime_args_drops_two_entries :
  forall W (host : Host W) (w w' : W) (argv : list JsString),
    process_argv (process host) w = (Normal argv, w') ->
    exists user,
      Full.NodeRuntime_args host w = (Normal user, w')
      /\ Restricted.NodeRuntime_args host w = (Normal user, w')
      /\ argv = firstn 2 argv ++ user
      /\ List.length user = (List.length argv - 2)%nat
      /\ ((List.length argv <= 2)%nat -> user = []).
Proof.
  intros W host w w' argv H. exists (skipn 2 argv).
  unfold Full.NodeRuntime_args, Restricted.NodeRuntime_args, bind, ret, slice.
  rewrite H. repeat split.
  - now rewrite firstn_skipn.
  - apply length_skipn.
  - intros Hlen. now apply skipn_all2.
Qed.

Lemma NodeRuntime_args_drops_two_entries_witness :
  exists user,
    Full.NodeRuntime_args (machine_host (linux false)) boot
    = (Normal user, record Get_process_argv boot)
    /\ Restricted.NodeRuntime_args (machine_host (linux false)) boot
       = (Normal user, record Get_process_argv boot)
    /\ [lit "/usr/bin/node"; lit "/app/main.ts"; lit "--port"; lit "8080"]
       = firstn 2 [lit "/usr/bin/node"; lit "/app/main.ts"; lit "--port";
                   lit "8080"] ++ user
    /\ List.length user = (4 - 2)%nat
    /\ ((4 <= 2)%nat -> user = []).
Proof.
  apply (NodeRuntime_args_drops_two_entries World (machine_host (linux false))
           boot (record Get_process_argv boot)
           [lit "/usr/bin/node"; lit "/app/main.ts"; lit "--port"; lit "8080"]).
  reflexivity.
Defined.
